(** * Session registry and message routing of the relay server (main.py)

    A shallow embedding of [main.py]: the decoded JSON messages, the schema
    validator, the two global dictionaries [CLIENTS] and [USER_ID_MAP], the
    registration handshake, the message router, the whitelist commands and
    the per-connection loop, followed by the properties of the
    specification that were checked against them. *)

From Stdlib Require Import ZArith Ascii.
From stdpp Require Import base option list strings gmap fin_maps.

Local Open Scope string_scope.
Local Open Scope list_scope.

(** ** Python values *)

(** The value [json.loads] returns for a frame.  A dict is kept as the list
    of its items in insertion order and is read through [dict_get], which
    takes the first binding of a key.  JSON numbers are kept as integers:
    the program never inspects a number beyond its not being a string, a
    list or a boolean. *)
#[warnings="-register-all"]
Inductive json : Type :=
  | JNull
  | JBool (b : bool)
  | JInt (n : Z)
  | JStr (s : string)
  | JList (l : list json)
  | JDict (d : list (string * json)).

Abbreviation dict := (list (string * json)).

(** The exceptions the handlers can let escape. *)
Inductive exn : Type :=
  | AttributeError
  | TypeError
  | KeyError
  | UnicodeDecodeError
  | ValueError
  | RecursionError
  | UnicodeEncodeError.

Inductive result (A : Type) : Type :=
  | Ok (a : A)
  | Raise (e : exn).
Arguments Ok {A} a.
Arguments Raise {A} e.

(** [d.get(k)] and [k in d]: [None] stands for an absent key. *)
Fixpoint dict_get (k : string) (d : dict) : option json :=
  match d with
  | [] => None
  | (k', v) :: d' => if String.eqb k k' then Some v else dict_get k d'
  end.

(** [d[k]] *)
Definition dict_item (k : string) (d : dict) : result json :=
  match dict_get k d with
  | Some v => Ok v
  | None => Raise KeyError
  end.

(** Python's [==] between two values that can be members of a set
    ([None], [bool], [int], [str]); [True == 1] and [False == 0] hold, a
    string is equal to strings only. *)
Definition py_eq (x y : json) : bool :=
  match x, y with
  | JNull, JNull => true
  | JBool a, JBool b => Bool.eqb a b
  | JInt a, JInt b => Z.eqb a b
  | JBool a, JInt b | JInt b, JBool a => Z.eqb (Z.b2z a) b
  | JStr a, JStr b => String.eqb a b
  | _, _ => false
  end.

(** Lists and dicts are unhashable. *)
Definition hashable (x : json) : bool :=
  match x with
  | JList _ | JDict _ => false
  | _ => true
  end.

(** A Python set is represented by the list of its members, without two
    members equal for [py_eq]. *)
Abbreviation pyset := (list json).

Definition set_contains (x : json) (s : pyset) : bool := existsb (py_eq x) s.

(** [s.add(x)] *)
Definition set_add (x : json) (s : pyset) : pyset :=
  if set_contains x s then s else s ++ [x].

(** [s.discard(x)] *)
Definition set_discard (x : json) (s : pyset) : pyset :=
  filter (λ y, py_eq x y = false) s.

(** [set(l)]: raises [TypeError] at the first unhashable element. *)
Fixpoint set_of_list_from (acc : pyset) (l : list json) : result pyset :=
  match l with
  | [] => Ok acc
  | x :: l' => if hashable x then set_of_list_from (set_add x acc) l'
               else Raise TypeError
  end.

Definition set_of_list (l : list json) : result pyset := set_of_list_from [] l.

(** [l == ["*"]] for a list [l]. *)
Definition list_eq_star (l : list json) : bool :=
  match l with
  | [JStr s] => String.eqb s "*"
  | _ => false
  end.

(** ** The schema validator *)

(** The types named in the schema table. *)
Inductive pytype : Type := Tstr | Tlist | Tobject | Tbool.

Definition isinstance (v : json) (t : pytype) : bool :=
  match t, v with
  | Tstr, JStr _ => true
  | Tlist, JList _ => true
  | Tbool, JBool _ => true
  | Tobject, _ => true
  | _, _ => false
  end.

Definition is_object (t : pytype) : bool :=
  match t with Tobject => true | _ => false end.

Definition schema : list (string * list (string * pytype)) :=
  [ ("register", [("user_id", Tstr); ("whitelist", Tlist)]);
    ("message", [("recipient_id", Tstr); ("payload", Tobject)]);
    ("whitelist_add", [("user_id", Tstr)]);
    ("whitelist_remove", [("user_id", Tstr)]);
    ("whitelist_toggle_wildcard", [("enabled", Tbool)]) ].

(** [table.get(k)] for the dict literals of the program (the schema, the
    handler map). *)
Fixpoint table_get {V : Type} (k : string) (t : list (string * V))
  : option V :=
  match t with
  | [] => None
  | (k', v) :: t' => if String.eqb k k' then Some v else table_get k t'
  end.

(** The body of the [for] loop of [validate_schema] for one field; [false]
    is the early [return False]. *)
Definition field_ok (data : dict) (f : string * pytype) : bool :=
  match dict_get f.1 data with
  | None => false
  | Some v => is_object f.2 || isinstance v f.2
  end.

Definition validate_schema (data : dict) : bool :=
  match dict_get "type" data with
  | Some (JStr msg_type) =>
      match table_get msg_type schema with
      | None => false
      | Some required_fields => forallb (field_ok data) required_fields
      end
  | _ => false
  end.

(** The schema table in the specification's words, where the whitelist of
    a register message is a list of strings. *)
Inductive semantic_type : Type :=
  | SString
  | SListOfString
  | SAnyValue
  | SBoolean.

Definition is_str (v : json) : bool :=
  match v with JStr _ => true | _ => false end.

Definition has_semantic_type (v : json) (t : semantic_type) : bool :=
  match t, v with
  | SString, JStr _ => true
  | SListOfString, JList l => forallb is_str l
  | SAnyValue, _ => true
  | SBoolean, JBool _ => true
  | _, _ => false
  end.

Definition spec_schema : list (string * list (string * semantic_type)) :=
  [ ("register", [("user_id", SString); ("whitelist", SListOfString)]);
    ("message", [("recipient_id", SString); ("payload", SAnyValue)]);
    ("whitelist_add", [("user_id", SString)]);
    ("whitelist_remove", [("user_id", SString)]);
    ("whitelist_toggle_wildcard", [("enabled", SBoolean)]) ].

Definition spec_field_ok (data : dict) (f : string * semantic_type) : bool :=
  match dict_get f.1 data with
  | None => false
  | Some v => has_semantic_type v f.2
  end.

Definition spec_valid (data : dict) : bool :=
  match dict_get "type" data with
  | Some (JStr msg_type) =>
      match table_get msg_type spec_schema with
      | Some required_fields => forallb (spec_field_ok data) required_fields
      | None => false
      end
  | _ => false
  end.

(** ** Request paths *)

(** [s.lstrip(c)] and [s.strip(c)] for a one-character set. *)
Fixpoint lstrip (c : ascii) (s : string) : string :=
  match s with
  | String a s' => if Ascii.eqb a c then lstrip c s' else s
  | EmptyString => EmptyString
  end.

Definition strip (c : ascii) (s : string) : string :=
  String.rev (lstrip c (String.rev (lstrip c s))).

(** [websocket.request.path.strip('/')] *)
Definition room_of_path (path : string) : string := strip "/" path.

(** The trailing segment of a request path in the specification's words:
    what follows the last ['/'] once leading and trailing ['/'] are
    removed. *)
Fixpoint last_segment_from (cur s : string) : string :=
  match s with
  | EmptyString => cur
  | String a s' =>
      if Ascii.eqb a "/" then last_segment_from "" s'
      else last_segment_from (cur +:+ String a "") s'
  end.

Definition trailing_segment (path : string) : string :=
  last_segment_from "" (strip "/" path).

(** [c in s] for a character. *)
Fixpoint contains_char (c : ascii) (s : string) : bool :=
  match s with
  | EmptyString => false
  | String a s' => Ascii.eqb a c || contains_char c s'
  end.

(** ** Sessions, registry and effects *)

(** A connection is an opaque handle. *)
Abbreviation conn := nat.

(** What the [whitelist] entry of a client can hold: a list (the code
    stores [["*"]]), a set, or a dict. *)
Inductive whitelist_value : Type :=
  | WList (l : list json)
  | WSet (s : pyset)
  | WDict (d : dict).

(** The wildcard marker [["*"]]. *)
Definition star : whitelist_value := WList [JStr "*"].

(** The dict [client_info]. *)
Record client_info : Type := ClientInfo {
  user_id : string;
  room_name : string;
  whitelist : whitelist_value
}.

(** The two module-level dictionaries. *)
Record state : Type := State {
  CLIENTS : gmap conn client_info;
  USER_ID_MAP : gmap string conn
}.

Definition initial : state := State ∅ ∅.

(** What a handler does to the outside: [websocket.send] of the JSON text
    of a value, [websocket.close] and [print]. *)
Inductive effect : Type :=
  | Send (ws : conn) (data : json)
  | Close (ws : conn) (code : Z) (reason : string)
  | Print (line : string).

(** A coroutine body between two suspension points: it reads and writes the
    registry, emits effects in order, and returns or raises. *)
Definition M (A : Type) : Type := state → state * list effect * result A.

Definition ret {A} (a : A) : M A := λ st, (st, [], Ok a).

Definition bind {A B} (m : M A) (k : A → M B) : M B := λ st,
  match m st with
  | (st1, out1, Ok a) =>
      match k a st1 with (st2, out2, r) => (st2, out1 ++ out2, r) end
  | (st1, out1, Raise e) => (st1, out1, Raise e)
  end.

Notation "'let*' x ':=' m 'in' k" := (bind m (λ x, k))
  (at level 10, x name, m at level 100, k at level 200, only parsing).
Notation "m ;; k" := (bind m (λ _, k))
  (at level 100, k at level 200, right associativity, only parsing).

Definition emit (e : effect) : M unit := λ st, (st, [e], Ok tt).
Definition lift {A} (r : result A) : M A := λ st, (st, [], r).
Definition get_state : M state := λ st, (st, [], Ok st).
Definition put_state (st' : state) : M unit := λ _, (st', [], Ok tt).

(** [send_json]: a closed connection is swallowed, so it always returns. *)
Definition send_json (websocket : conn) (data : json) : M unit :=
  emit (Send websocket data).

(** [CLIENTS[ws]] *)
Definition clients_item (ws : conn) : M client_info := λ st,
  match CLIENTS st !! ws with
  | Some info => (st, [], Ok info)
  | None => (st, [], Raise KeyError)
  end.

(** [data[k]] where the schema has made the value a [str]. *)
Definition item_str (k : string) (data : dict) : result string :=
  match dict_get k data with
  | Some (JStr s) => Ok s
  | Some _ => Raise TypeError
  | None => Raise KeyError
  end.

(** [data[k]] where the schema has made the value a [list]. *)
Definition item_list (k : string) (data : dict) : result (list json) :=
  match dict_get k data with
  | Some (JList l) => Ok l
  | Some _ => Raise TypeError
  | None => Raise KeyError
  end.

(** [data[k]] where the schema has made the value a [bool]. *)
Definition item_bool (k : string) (data : dict) : result bool :=
  match dict_get k data with
  | Some (JBool b) => Ok b
  | Some _ => Raise TypeError
  | None => Raise KeyError
  end.

(** [data.get("type") == name] *)
Definition type_is (name : string) (d : dict) : bool :=
  match dict_get "type" d with
  | Some (JStr t) => String.eqb t name
  | _ => false
  end.

(** ** Frames *)

(** The ways [json.loads] fails on a frame other than by
    [json.JSONDecodeError]: a binary frame that is not UTF-8, an integer
    literal over the digit limit of [int], a nesting too deep for the
    interpreter. *)
Inductive loads_failure : Type :=
  | InvalidUtf8
  | IntTooLong
  | TooDeep.

Definition loads_exn (why : loads_failure) : exn :=
  match why with
  | InvalidUtf8 => UnicodeDecodeError
  | IntTooLong => ValueError
  | TooDeep => RecursionError
  end.

(** A received frame, as [json.loads] sees it: [BadJson] when it raises
    [json.JSONDecodeError], [Unloadable] when it raises another exception,
    the decoded value otherwise. *)
Inductive frame : Type :=
  | BadJson
  | Unloadable (why : loads_failure)
  | Json (data : json).

(** The outcome of [asyncio.wait_for(websocket.recv(), timeout=10.0)]. *)
Inductive recv_event : Type :=
  | RecvTimeout
  | RecvClosed
  | RecvFrame (m : frame).

(** ** Operations on the whitelist entry *)

(** [w == ["*"]] *)
Definition wl_eq_star (w : whitelist_value) : bool :=
  match w with
  | WList l => list_eq_star l
  | _ => false
  end.

(** [sender_id in w] for a [str] sender id. *)
Definition wl_contains (sender_id : string) (w : whitelist_value) : bool :=
  match w with
  | WList l => existsb (py_eq (JStr sender_id)) l
  | WSet s => set_contains (JStr sender_id) s
  | WDict d => bool_decide (is_Some (dict_get sender_id d))
  end.

(** [w.add(x)]: only a set has [add]. *)
Definition wl_add (x : json) (w : whitelist_value) : result whitelist_value :=
  match w with
  | WSet s => Ok (WSet (set_add x s))
  | _ => Raise AttributeError
  end.

(** [w.discard(x)]: only a set has [discard]. *)
Definition wl_discard (x : json) (w : whitelist_value)
  : result whitelist_value :=
  match w with
  | WSet s => Ok (WSet (set_discard x s))
  | _ => Raise AttributeError
  end.

(** [client_info["whitelist"] = w] on the dict stored at [CLIENTS[ws]]. *)
Definition store_whitelist (ws : conn) (client : client_info)
    (w : whitelist_value) (st : state) : state :=
  State (<[ws := ClientInfo (user_id client) (room_name client) w]>
           (CLIENTS st))
        (USER_ID_MAP st).

Definition set_whitelist (ws : conn) (client : client_info)
    (w : whitelist_value) : M unit := λ st,
  (store_whitelist ws client w st, [], Ok tt).

(** ** Registration and deregistration *)

Section Server.

(** Whether [sys.stdout] can encode a text: [print] raises
    [UnicodeEncodeError] on a text it cannot (a lone surrogate on a UTF-8
    stream, any character outside the encoding of the stream). *)
Variable stdout_encodes : string → bool.

(** [print(line)] *)
Definition print_line (line : string) : M unit :=
  if stdout_encodes line then emit (Print line)
  else lift (Raise UnicodeEncodeError).

(** The line printed by a successful registration. *)
Definition registered_line (uid room : string) : string :=
  "Client '" +:+ uid +:+ "' registered in room '" +:+ room +:+ "'.".

Definition user_id_in_use (uid : string) (st : state) : bool :=
  bool_decide (is_Some (USER_ID_MAP st !! uid)).

(** [["*"] if whitelist == ["*"] else set(whitelist)] *)
Definition make_whitelist (l : list json) : result whitelist_value :=
  if list_eq_star l then Ok star
  else match set_of_list l with
       | Ok s => Ok (WSet s)
       | Raise e => Raise e
       end.

(** [register_client]: [ev] is the outcome of the wait for the first frame.
    The three outcomes of the [except] clause return [False] and do nothing
    else; any other exception of [json.loads] is not caught; a decoded
    value that is not a dict has no [get] and raises; the [TypeError] of
    [set(whitelist)] is raised before either dictionary is written, the
    [UnicodeEncodeError] of [print] after both were. *)
Definition register_client (websocket : conn) (room : string)
    (ev : recv_event) : M bool :=
  match ev with
  | RecvTimeout | RecvClosed | RecvFrame BadJson => ret false
  | RecvFrame (Json (JDict data)) =>
      if validate_schema data && type_is "register" data then
        let* uid := lift (item_str "user_id" data) in
        let* wl := lift (item_list "whitelist" data) in
        let* st := get_state in
        if String.eqb uid "" || user_id_in_use uid st then
          emit (Close websocket 1008 "User ID is invalid or already in use.") ;;
          ret false
        else
          let* w := lift (make_whitelist wl) in
          put_state (State (<[websocket := ClientInfo uid room w]> (CLIENTS st))
                           (<[uid := websocket]> (USER_ID_MAP st))) ;;
          print_line (registered_line uid room) ;;
          ret true
      else
        emit (Close websocket 1002
          "Protocol error: First message must be a valid 'register' type.") ;;
        ret false
  | RecvFrame (Unloadable why) => lift (Raise (loads_exn why))
  | RecvFrame (Json _) => lift (Raise AttributeError)
  end.

(** [unregister_client]: [CLIENTS.pop(websocket, None)], then
    [USER_ID_MAP.pop(user_id, None)] when a client was found.  Its [print]
    is reached from [main_handler] only for a client whose registration
    line was printed and adds nothing but ASCII text to the same user id,
    so it is an effect that does not raise. *)
Definition unregister_client (websocket : conn) : M unit := λ st,
  match CLIENTS st !! websocket with
  | Some info =>
      (State (delete websocket (CLIENTS st))
             (delete (user_id info) (USER_ID_MAP st)),
       [Print ("Client '" +:+ user_id info
               +:+ "' unregistered and cleaned up.")],
       Ok tt)
  | None => (st, [], Ok tt)
  end.

(** ** The message router *)

Definition generic_failure_msg (recipient_id : string) : json :=
  JDict [("type", JStr "error");
         ("message", JStr ("Could not deliver message to '" +:+ recipient_id
            +:+ "'. The user may be offline or has not whitelisted you."))].

Definition forward_message (sender_id : string) (payload : json) : json :=
  JDict [("type", JStr "incoming_message");
         ("sender_id", JStr sender_id);
         ("payload", payload)].

Definition handle_direct_message (sender_ws : conn) (data : dict) : M unit :=
  let* sender_info := clients_item sender_ws in
  let sender_id := user_id sender_info in
  let* recipient_id := lift (item_str "recipient_id" data) in
  let* st := get_state in
  (* [if not recipient_ws]: a connection object is truthy, so the test is
     whether [get] found the key *)
  match USER_ID_MAP st !! recipient_id with
  | None => send_json sender_ws (generic_failure_msg recipient_id)
  | Some recipient_ws =>
      let* recipient_info := clients_item recipient_ws in
      let is_in_room :=
        String.eqb (room_name recipient_info) (room_name sender_info) in
      let is_whitelisted :=
        wl_eq_star (whitelist recipient_info)
        || wl_contains sender_id (whitelist recipient_info) in
      if is_in_room && is_whitelisted then
        let* payload := lift (dict_item "payload" data) in
        send_json recipient_ws (forward_message sender_id payload)
      else
        send_json sender_ws (generic_failure_msg recipient_id)
  end.

(** ** The whitelist commands and the connection loop *)

(** The order in which [list(s)] enumerates a set; Python leaves it
    unspecified. *)
Variable set_iter : pyset → list json.

Definition whitelist_updated (message : string) (current_list : json) : json :=
  JDict [("type", JStr "whitelist_updated");
         ("message", JStr message);
         ("current_whitelist", current_list)].

Definition handle_whitelist_command (websocket : conn) (data : dict)
  : M unit :=
  let* client := clients_item websocket in
  let* user_to_modify := lift (item_str "user_id" data) in
  let* command := lift (item_str "type" data) in
  let* action_text :=
    if String.eqb command "whitelist_add" then
      if wl_eq_star (whitelist client) then
        set_whitelist websocket client (WSet [JStr user_to_modify]) ;;
        ret "converted from wildcard and added"
      else
        let* w := lift (wl_add (JStr user_to_modify) (whitelist client)) in
        set_whitelist websocket client w ;;
        ret "added"
    else if String.eqb command "whitelist_remove" then
      (if wl_eq_star (whitelist client) then
         set_whitelist websocket client (WDict [])
       else
         let* w := lift (wl_discard (JStr user_to_modify) (whitelist client)) in
         set_whitelist websocket client w) ;;
      ret "removed"
    else ret "" in
  let* client' := clients_item websocket in
  let current_list :=
    match whitelist client' with
    | WSet s => JList (set_iter s)
    | WList l => JList l
    | WDict d => JDict d
    end in
  send_json websocket
    (whitelist_updated
       ("User '" +:+ user_to_modify +:+ "' was " +:+ action_text +:+ ".")
       current_list).

Definition handle_whitelist_toggle (websocket : conn) (data : dict)
  : M unit :=
  let* client := clients_item websocket in
  let* enabled := lift (item_bool "enabled" data) in
  let* status_text :=
    if enabled then
      set_whitelist websocket client star ;;
      ret "enabled (accepting from all in room)"
    else
      set_whitelist websocket client (WSet []) ;;
      ret "disabled (accepting from no one)" in
  let* client' := clients_item websocket in
  let current_list :=
    match whitelist client' with
    | WList l => JList l
    | WSet s => JList (set_iter s)
    | WDict d => JList (map (λ kv, JStr kv.1) d)
    end in
  send_json websocket
    (whitelist_updated
       ("Wildcard whitelist has been " +:+ status_text +:+ ".")
       current_list).

Definition handler_map : list (string * (conn → dict → M unit)) :=
  [ ("message", handle_direct_message);
    ("whitelist_add", handle_whitelist_command);
    ("whitelist_remove", handle_whitelist_command);
    ("whitelist_toggle_wildcard", handle_whitelist_toggle) ].

(** The body of the [async for] loop for one frame. *)
Definition handle_frame (websocket : conn) (f : frame) : M unit :=
  match f with
  | BadJson => ret tt
  | Json (JDict data) =>
      if negb (validate_schema data) then ret tt
      else
        let* t := lift (item_str "type" data) in
        match table_get t handler_map with
        | Some handler_func => handler_func websocket data
        | None => ret tt
        end
  | Unloadable why => lift (Raise (loads_exn why))
  | Json _ => lift (Raise AttributeError)
  end.

(** The loop over the frames received until the connection ends. *)
Fixpoint serve (websocket : conn) (frames : list frame) : M unit :=
  match frames with
  | [] => ret tt
  | f :: frames' => handle_frame websocket f ;; serve websocket frames'
  end.

(** [try: body finally: fin] *)
Definition try_finally {A} (body : M A) (fin : M unit) : M A := λ st,
  match body st with
  | (st1, out1, r) =>
      match fin st1 with
      | (st2, out2, Ok _) => (st2, out1 ++ out2, r)
      | (st2, out2, Raise e) => (st2, out1 ++ out2, Raise e)
      end
  end.

(** The part of [main_handler] before the loop: the room name, then the
    registration; [first] is the outcome of the registration wait.  It
    returns whether the loop is entered. *)
Definition open_connection (websocket : conn) (path : string)
    (first : recv_event) : M bool :=
  let room := room_of_path path in
  if String.eqb room "" then
    emit (Close websocket 1008
      "Room name must be provided in the URL path (e.g., /my-room).") ;;
    ret false
  else register_client websocket room first.

(** One connection from its request path to its end; [frames] is what the
    loop receives after the registration. *)
Definition main_handler (websocket : conn) (path : string)
    (first : recv_event) (frames : list frame) : M unit :=
  let* entered := open_connection websocket path first in
  if negb entered then ret tt
  else try_finally (serve websocket frames) (unregister_client websocket).

(** One frame of an active connection, with the [finally] clause run when
    the handler raises. *)
Definition active_step (websocket : conn) (f : frame) : M unit := λ st,
  match handle_frame websocket f st with
  | (st1, out1, Ok _) => (st1, out1, Ok tt)
  | (st1, out1, Raise e) =>
      match unregister_client websocket st1 with
      | (st2, out2, _) => (st2, out1 ++ out2, Raise e)
      end
  end.

(** The states of the registry the server can be in: connections register
    once, on a handle not in use, with a non-empty room; active connections
    handle frames; any connection can end.  Coroutines only interleave at
    their suspension points, which is between these steps. *)
Inductive reachable : state → Prop :=
  | reach_initial : reachable initial
  | reach_register st ws room ev :
      reachable st → CLIENTS st !! ws = None → room ≠ "" →
      reachable (register_client ws room ev st).1.1
  | reach_frame st ws f :
      reachable st → is_Some (CLIENTS st !! ws) →
      reachable (active_step ws f st).1.1
  | reach_close st ws :
      reachable st → reachable (unregister_client ws st).1.1.


(** ** Predicates of the specification *)

(** The two representations of a whitelist: the wildcard marker, or a set
    whose members satisfy [P]. *)
Definition is_wildcard (w : whitelist_value) : bool := wl_eq_star w.

Definition is_allowed (P : json → bool) (w : whitelist_value) : bool :=
  match w with
  | WSet s => forallb P s
  | _ => false
  end.

Definition two_representations (P : json → bool) (w : whitelist_value)
  : bool :=
  is_wildcard w || is_allowed P w.

(** The access check of the router in the specification's words. *)
Definition deliverable (sender recipient : client_info) : Prop :=
  room_name recipient = room_name sender ∧
  (whitelist recipient = star ∨
   ∃ s, whitelist recipient = WSet s ∧ In (JStr (user_id sender)) s).

(** The check [is_in_room and is_whitelisted] of the router. *)
Definition access_check (sender recipient : client_info) : bool :=
  String.eqb (room_name recipient) (room_name sender)
  && (wl_eq_star (whitelist recipient)
      || wl_contains (user_id sender) (whitelist recipient)).

(** The two views of the registry agree. *)
Definition registry_consistent (st : state) : Prop :=
  (∀ c info, CLIENTS st !! c = Some info →
     USER_ID_MAP st !! user_id info = Some c) ∧
  size (CLIENTS st) = size (USER_ID_MAP st).

(** What a whitelist entry holds in a reachable state. *)
Definition wl_shape (w : whitelist_value) : bool :=
  match w with
  | WList l => list_eq_star l
  | WSet s => forallb hashable s
  | WDict d => bool_decide (d = [])
  end.

(** The invariant of the reachable states. *)
Record registry_inv (st : state) : Prop := RegistryInv {
  inv_forward : ∀ c info, CLIENTS st !! c = Some info →
    USER_ID_MAP st !! user_id info = Some c;
  inv_backward : ∀ u c, USER_ID_MAP st !! u = Some c →
    ∃ info, CLIENTS st !! c = Some info ∧ user_id info = u;
  inv_size : size (CLIENTS st) = size (USER_ID_MAP st);
  inv_shape : ∀ c info, CLIENTS st !! c = Some info →
    wl_shape (whitelist info) = true;
  inv_user_id : ∀ c info, CLIENTS st !! c = Some info → user_id info ≠ ""
}.

(** A frame that is a valid [whitelist_remove] sent by a session whose
    whitelist is the wildcard marker. *)
Definition removes_from_wildcard (st : state) (ws : conn) (f : frame)
  : Prop :=
  ∃ data info, f = Json (JDict data) ∧ validate_schema data = true ∧
    type_is "whitelist_remove" data = true ∧
    CLIENTS st !! ws = Some info ∧ whitelist info = star.

(** ** Scenarios *)

(** The frames of the protocol and the states of the scenarios of the
    specification: [a] registers with the wildcard in room [lobby], [b] with
    the whitelist [["a"]] in [lobby], [c] with the wildcard in [other]. *)
Definition register_data (uid : string) (wl : list json) : dict :=
  [("type", JStr "register"); ("user_id", JStr uid); ("whitelist", JList wl)].

Definition register_frame (uid : string) (wl : list json) : recv_event :=
  RecvFrame (Json (JDict (register_data uid wl))).

Definition message_data (rid : string) (payload : json) : dict :=
  [("type", JStr "message"); ("recipient_id", JStr rid); ("payload", payload)].

Definition whitelist_data (command uid : string) : dict :=
  [("type", JStr command); ("user_id", JStr uid)].

Definition add_session (ws : conn) (info : client_info) (st : state)
  : state :=
  State (<[ws := info]> (CLIENTS st)) (<[user_id info := ws]> (USER_ID_MAP st)).

Definition lobby_a : state :=
  add_session 1 (ClientInfo "a" "lobby" star) initial.

Definition lobby_ab : state :=
  add_session 2 (ClientInfo "b" "lobby" (WSet [JStr "a"])) lobby_a.

Definition lobby_abc : state :=
  add_session 3 (ClientInfo "c" "other" star) lobby_ab.

(** A UTF-8 standard output, for texts kept as their UTF-8 bytes with a
    lone surrogate as the three bytes of its code point (which begin with
    [0xED] and a byte from [0xA0] on): it encodes a text exactly when no
    surrogate occurs in it. *)
Fixpoint utf8_stdout (s : string) : bool :=
  match s with
  | EmptyString => true
  | String a s' =>
      match s' with
      | String b _ =>
          negb (Ascii.eqb a "237" && (160 <=? nat_of_ascii b)%nat)
          && utf8_stdout s'
      | EmptyString => true
      end
  end.

(** The user id ["\ud800"], a lone surrogate. *)
Definition lone_surrogate : string :=
  String "237" (String "160" (String "128" EmptyString)).

(** [list(s)] enumerating a set in the order of its representation. *)
Definition in_order (s : pyset) : list json := s.

(** The frame of a wildcard toggle. *)
Definition toggle_data (enabled : bool) : dict :=
  [("type", JStr "whitelist_toggle_wildcard"); ("enabled", JBool enabled)].

(** [a] after its wildcard was replaced by the empty dict. *)
Definition lobby_dict : state :=
  store_whitelist 1 (ClientInfo "a" "lobby" star) (WDict []) lobby_a.

(** A registration whose whitelist holds a number. *)
Definition lobby_n : state :=
  add_session 1 (ClientInfo "a" "lobby" (WSet [JInt 7])) initial.

(** ** Further predicates *)

(** [isinstance(v, dict)] *)
Definition is_dict (v : json) : bool :=
  match v with JDict _ => true | _ => false end.

(** The local [is_whitelisted] of the router, for a sender id and the
    whitelist entry of the recipient. *)
Definition whitelisted (sender_id : string) (w : whitelist_value) : bool :=
  wl_eq_star w || wl_contains sender_id w.

(** Every character of [s] is [c]. *)
Fixpoint all_char (c : ascii) (s : string) : bool :=
  match s with
  | EmptyString => true
  | String a s' => Ascii.eqb a c && all_char c s'
  end.


(** The effects of one handler call are at most one [Send], addressed to
    the sender or to a connection found in [USER_ID_MAP]. *)
Definition one_send_to (st : state) (ws : conn) (out : list effect) : Prop :=
  out = [] ∨
  ∃ c data, out = [Send c data] ∧
    (c = ws ∨ ∃ rid, USER_ID_MAP st !! rid = Some c).

(** The registry with one more session, entered in both dictionaries. *)
Definition with_session (st : state) (ws : conn) (info : client_info)
  : state :=
  State (<[ws := info]> (CLIENTS st))
        (<[user_id info := ws]> (USER_ID_MAP st)).

(** The values a whitelist entry takes in the running server: the list
    [["*"]], a set of hashable values without repetition, or the empty
    dict. *)
Definition whitelist_value_ok (w : whitelist_value) : Prop :=
  w = star ∨
  (∃ s, w = WSet s ∧ forallb hashable s = true ∧ NoDup s) ∨
  w = WDict [].

(** The four message types that have a handler. *)
Definition handled_type (t : string) : Prop :=
  t = "message" ∨ t = "whitelist_add" ∨ t = "whitelist_remove" ∨
  t = "whitelist_toggle_wildcard".

(** * Properties *)

(** ** Python values *)

Lemma py_eq_str (x : string) (y : json) :
  py_eq (JStr x) y = true ↔ y = JStr x.
Proof.
  destruct y; simpl; try (split; [discriminate | congruence]).
  rewrite String.eqb_eq. split; congruence.
Qed.

Lemma set_contains_str (x : string) (s : pyset) :
  set_contains (JStr x) s = true ↔ In (JStr x) s.
Proof.
  unfold set_contains. rewrite existsb_exists. split.
  - intros (y & Hy & Heq). apply py_eq_str in Heq. by subst.
  - intros Hin. exists (JStr x). split; [done | by apply py_eq_str].
Qed.

Lemma list_eq_star_spec (l : list json) :
  list_eq_star l = true ↔ l = [JStr "*"].
Proof.
  split; [| by intros ->].
  destruct l as [|[] [|]]; simpl; try discriminate.
  rewrite String.eqb_eq. by intros ->.
Qed.

Lemma wl_eq_star_spec (w : whitelist_value) :
  wl_eq_star w = true ↔ w = star.
Proof.
  unfold star. destruct w; simpl; try (split; [discriminate | congruence]).
  rewrite list_eq_star_spec. split; congruence.
Qed.

(** ** The schema validator *)

Example validate_register :
  validate_schema [("type", JStr "register"); ("user_id", JStr "a");
                   ("whitelist", JList [JStr "*"])] = true.
Proof. reflexivity. Qed.

Example validate_toggle_int :
  validate_schema [("type", JStr "whitelist_toggle_wildcard");
                   ("enabled", JInt 1)] = false.
Proof. reflexivity. Qed.

Ltac string_cases t :=
  repeat match goal with
  | |- context [String.eqb t ?lit] =>
      destruct (String.eqb_spec t lit); [subst t |]
  end.

(** C3, as the code has it: a message is valid exactly when its type is a
    string naming one of the five types and each field of that type is
    present with its declared type, where the whitelist of a register
    message is any list (its elements are not inspected) and the payload of
    a message is any value. *)
Theorem validate_schema_spec (data : dict) :
  validate_schema data = true ↔
  ∃ t, dict_get "type" data = Some (JStr t) ∧
    ((t = "register" ∧
        (∃ u, dict_get "user_id" data = Some (JStr u)) ∧
        (∃ l, dict_get "whitelist" data = Some (JList l))) ∨
     (t = "message" ∧
        (∃ r, dict_get "recipient_id" data = Some (JStr r)) ∧
        (∃ p, dict_get "payload" data = Some p)) ∨
     (t = "whitelist_add" ∧
        (∃ u, dict_get "user_id" data = Some (JStr u))) ∨
     (t = "whitelist_remove" ∧
        (∃ u, dict_get "user_id" data = Some (JStr u))) ∨
     (t = "whitelist_toggle_wildcard" ∧
        (∃ b, dict_get "enabled" data = Some (JBool b)))).
Proof.
  unfold validate_schema. split.
  - destruct (dict_get "type" data) as [[| | |t| |]|]; try discriminate.
    intros Hv. exists t. split; [done|].
    revert Hv. unfold schema, table_get. string_cases t;
      unfold forallb, field_ok; simpl; try discriminate.
    + destruct (dict_get "user_id" data) as [[]|]; try discriminate.
      destruct (dict_get "whitelist" data) as [[]|]; try discriminate.
      intros _. left. eauto.
    + destruct (dict_get "recipient_id" data) as [[]|]; try discriminate.
      destruct (dict_get "payload" data) as [p|]; try discriminate.
      intros _. right; left. eauto.
    + destruct (dict_get "user_id" data) as [[]|]; try discriminate.
      intros _. right; right; left. eauto.
    + destruct (dict_get "user_id" data) as [[]|]; try discriminate.
      intros _. do 3 right; left. eauto.
    + destruct (dict_get "enabled" data) as [[]|]; try discriminate.
      intros _. do 4 right. eauto.
  - intros (t & -> & Hcases).
    destruct Hcases as [(-> & [u Hu] & [l Hl]) | [(-> & [r Hr] & [q Hq]) |
      [(-> & [u Hu]) | [(-> & [u Hu]) | (-> & [b Hb])]]]];
      unfold schema, table_get, forallb, field_ok; simpl;
      repeat match goal with H : dict_get _ data = _ |- _ => rewrite H end;
      reflexivity.
Qed.

(** The rule of the specification is sufficient for the code. *)
Lemma spec_valid_validate_schema (data : dict) :
  spec_valid data = true → validate_schema data = true.
Proof.
  unfold spec_valid, validate_schema.
  destruct (dict_get "type" data) as [[| | |t| |]|]; try discriminate.
  unfold spec_schema, schema, table_get. string_cases t;
    unfold forallb, spec_field_ok, field_ok; simpl; try discriminate.
  - destruct (dict_get "user_id" data) as [[]|]; try discriminate.
    destruct (dict_get "whitelist" data) as [[]|]; done.
  - destruct (dict_get "recipient_id" data) as [[]|]; try discriminate.
    destruct (dict_get "payload" data) as [p|]; done.
  - destruct (dict_get "user_id" data) as [[]|]; done.
  - destruct (dict_get "user_id" data) as [[]|]; done.
  - destruct (dict_get "enabled" data) as [[]|]; done.
Qed.

(** What validation gives the handlers. *)
Lemma type_is_item (name : string) (data : dict) :
  type_is name data = true ↔ item_str "type" data = Ok name.
Proof.
  unfold type_is, item_str.
  destruct (dict_get "type" data) as [[| | |t| |]|];
    try (split; [discriminate | congruence]).
  rewrite String.eqb_eq. split; congruence.
Qed.

(** ** Sets *)

Lemma set_add_forallb (P : json → bool) (x : json) (s : pyset) :
  P x = true → forallb P s = true → forallb P (set_add x s) = true.
Proof.
  intros Hx Hs. unfold set_add. destruct (set_contains x s); [done|].
  rewrite forallb_app, Hs. simpl. by rewrite Hx.
Qed.

Lemma set_discard_forallb (P : json → bool) (x : json) (s : pyset) :
  forallb P s = true → forallb P (set_discard x s) = true.
Proof.
  unfold set_discard. induction s as [|y s IH]; simpl; [done|].
  intros [Hy Hs]%andb_prop. rewrite filter_cons.
  case_decide; simpl; [rewrite Hy|]; auto.
Qed.

Lemma set_of_list_from_hashable (l : list json) (acc s : pyset) :
  forallb hashable acc = true → set_of_list_from acc l = Ok s →
  forallb hashable s = true.
Proof.
  revert acc. induction l as [|x l IH]; simpl; intros acc Hacc Hs.
  - congruence.
  - destruct (hashable x) eqn:Hx; [|discriminate].
    eapply IH; [|done]. by apply set_add_forallb.
Qed.

Lemma make_whitelist_repr (l : list json) (w : whitelist_value) :
  make_whitelist l = Ok w → two_representations hashable w = true.
Proof.
  unfold make_whitelist. destruct (list_eq_star l); [by intros [= <-]|].
  destruct (set_of_list l) as [s|] eqn:Hs; [|discriminate].
  intros [= <-]. unfold two_representations. simpl.
  by apply (set_of_list_from_hashable l [] s).
Qed.

Lemma two_representations_shape (w : whitelist_value) :
  two_representations hashable w = true → wl_shape w = true.
Proof.
  unfold two_representations, is_wildcard. destruct w; simpl; try done.
  by rewrite orb_false_r.
Qed.

(** ** Registration *)

Ltac run :=
  unfold bind, lift, ret, emit, get_state, put_state, send_json, clients_item,
    set_whitelist; simpl.

(** Every run of [register_client] either leaves the registry as it was
    and does not return [True], or inserts one session in both views. *)
Lemma register_client_cases ws room ev st :
  ((register_client ws room ev st).1.1 = st ∧
   (register_client ws room ev st).2 ≠ Ok true) ∨
  ∃ data uid l w,
    ev = RecvFrame (Json (JDict data)) ∧
    dict_get "user_id" data = Some (JStr uid) ∧
    dict_get "whitelist" data = Some (JList l) ∧
    make_whitelist l = Ok w ∧
    uid ≠ "" ∧ USER_ID_MAP st !! uid = None ∧
    register_client ws room ev st =
      (State (<[ws := ClientInfo uid room w]> (CLIENTS st))
             (<[uid := ws]> (USER_ID_MAP st)),
       (if stdout_encodes (registered_line uid room)
        then [Print (registered_line uid room)] else []),
       (if stdout_encodes (registered_line uid room)
        then Ok true else Raise UnicodeEncodeError)).
Proof.
  destruct ev as [| |[| |[]]]; simpl; try (left; split; [done | discriminate]).
  destruct (validate_schema d && type_is "register" d);
    [| left; split; [done | discriminate]].
  unfold item_str, item_list. run.
  destruct (dict_get "user_id" d) as [[| | |uid| |]|] eqn:Huid;
    try (left; split; [done | discriminate]).
  simpl. destruct (dict_get "whitelist" d) as [[| | | |l|]|] eqn:Hwl;
    try (left; split; [done | discriminate]).
  simpl. unfold user_id_in_use.
  destruct (String.eqb_spec uid ""); simpl;
    [left; split; [done | discriminate]|].
  case_bool_decide as Huse; simpl; [left; split; [done | discriminate]|].
  destruct (make_whitelist l) as [w|] eqn:Hw; simpl;
    [| left; split; [done | discriminate]].
  right. exists d, uid, l, w.
  split_and!; try done; [by apply eq_None_not_Some|].
  unfold print_line. by destruct (stdout_encodes _).
Qed.

Lemma register_client_inv ws room ev st :
  registry_inv st → CLIENTS st !! ws = None →
  registry_inv (register_client ws room ev st).1.1.
Proof.
  intros Hinv Hfresh.
  destruct (register_client_cases ws room ev st) as
    [[-> _] | (data & uid & l & w & _ & _ & _ & Hw & Hne & Hfree & ->)];
    [done|].
  destruct Hinv as [Hfwd Hbwd Hsize Hshape Huid]. split; simpl.
  - intros c info. rewrite lookup_insert. case_decide as Hc.
    + intros [= <-]. simpl. subst c. by rewrite lookup_insert_eq.
    + intros Hinfo. rewrite lookup_insert_ne; [by apply Hfwd|].
      intros ->. apply Hfwd in Hinfo. congruence.
  - intros u c. rewrite lookup_insert. case_decide as Hu.
    + intros [= <-]. subst u. rewrite lookup_insert_eq. eauto.
    + intros Hc. destruct (Hbwd u c Hc) as (info & Hinfo & Hinfo_u).
      rewrite lookup_insert_ne; [eauto | congruence].
  - rewrite !map_size_insert_None by done. by rewrite Hsize.
  - intros c info. rewrite lookup_insert. case_decide.
    + intros [= <-]. simpl.
      eapply two_representations_shape, make_whitelist_repr, Hw.
    + apply Hshape.
  - intros c info. rewrite lookup_insert. case_decide.
    + by intros [= <-].
    + apply Huid.
Qed.

Lemma unregister_client_inv ws st :
  registry_inv st → registry_inv (unregister_client ws st).1.1.
Proof.
  intros Hinv. unfold unregister_client.
  destruct (CLIENTS st !! ws) as [info|] eqn:Hws; [|done].
  destruct Hinv as [Hfwd Hbwd Hsize Hshape Huid]. split; simpl.
  - intros c i. rewrite lookup_delete. case_decide; [done|].
    intros Hc. rewrite lookup_delete_ne; [by apply Hfwd|].
    intros Heq. apply Hfwd in Hc, Hws. congruence.
  - intros u c. rewrite lookup_delete. case_decide; [done|].
    intros Hc. destruct (Hbwd u c Hc) as (i & Hi & Hiu).
    exists i. split; [|done]. rewrite lookup_delete_ne; [done|].
    intros ->. congruence.
  - rewrite !map_size_delete_Some; [by rewrite Hsize | |]; eauto.
  - intros c i. rewrite lookup_delete. case_decide; [done | apply Hshape].
  - intros c i. rewrite lookup_delete. case_decide; [done | apply Huid].
Qed.

(** Replacing the whitelist entry of a session keeps the invariant. *)
Lemma set_whitelist_inv ws info w st :
  registry_inv st → CLIENTS st !! ws = Some info → wl_shape w = true →
  registry_inv (store_whitelist ws info w st).
Proof.
  intros [Hfwd Hbwd Hsize Hshape Huid] Hws Hw. split; simpl.
  - intros c i. rewrite lookup_insert. case_decide.
    + intros [= <-]. simpl. subst c. by apply Hfwd.
    + apply Hfwd.
  - intros u c Hc. destruct (Hbwd u c Hc) as (i & Hi & Hiu).
    rewrite lookup_insert. case_decide; [subst c | eauto].
    eexists. split; [done|]. simpl. congruence.
  - rewrite map_size_insert_Some; eauto.
  - intros c i. rewrite lookup_insert. case_decide.
    + by intros [= <-].
    + apply Hshape.
  - intros c i. rewrite lookup_insert. case_decide.
    + intros [= <-]. simpl. by eapply Huid.
    + apply Huid.
Qed.

(** ** The handlers *)

Lemma handle_direct_message_state ws data st :
  (handle_direct_message ws data st).1.1 = st.
Proof.
  unfold handle_direct_message. run.
  destruct (CLIENTS st !! ws) as [sender|]; simpl; [|done].
  destruct (item_str "recipient_id" data) as [rid|]; simpl; [|done].
  destruct (USER_ID_MAP st !! rid) as [rws|]; simpl; [|done].
  destruct (CLIENTS st !! rws) as [recipient|]; simpl; [|done].
  destruct (_ && _); simpl; [|done].
  by destruct (dict_item "payload" data).
Qed.

(** What a whitelist command does to the entry of its sender. *)
Lemma handle_whitelist_command_cases ws data st :
  (handle_whitelist_command ws data st).1.1 = st ∨
  ∃ info u w,
    CLIENTS st !! ws = Some info ∧ item_str "user_id" data = Ok u ∧
    (handle_whitelist_command ws data st).1.1 = store_whitelist ws info w st ∧
    (handle_whitelist_command ws data st).2 = Ok tt ∧
    ((item_str "type" data = Ok "whitelist_add" ∧
        whitelist info = star ∧ w = WSet [JStr u]) ∨
     (item_str "type" data = Ok "whitelist_add" ∧
        ∃ s, whitelist info = WSet s ∧ w = WSet (set_add (JStr u) s)) ∨
     (item_str "type" data = Ok "whitelist_remove" ∧
        whitelist info = star ∧ w = WDict []) ∨
     (item_str "type" data = Ok "whitelist_remove" ∧
        ∃ s, whitelist info = WSet s ∧ w = WSet (set_discard (JStr u) s))).
Proof.
  unfold handle_whitelist_command. run.
  destruct (CLIENTS st !! ws) as [info|] eqn:Hws; simpl; [|by left].
  destruct (item_str "user_id" data) as [u|]; simpl; [|by left].
  destruct (item_str "type" data) as [command|]; simpl; [|by left].
  destruct (String.eqb_spec command "whitelist_add") as [->|Hadd]; simpl.
  { destruct (wl_eq_star (whitelist info)) eqn:Hstar; simpl.
    - rewrite lookup_insert_eq. simpl. right. exists info, u, (WSet [JStr u]).
      apply wl_eq_star_spec in Hstar. split_and!; try done. by left.
    - destruct (whitelist info) as [l|s|d] eqn:Hw; simpl; try by left.
      rewrite lookup_insert_eq. simpl. right.
      exists info, u, (WSet (set_add (JStr u) s)).
      split_and!; try done. right; left. eauto. }
  destruct (String.eqb_spec command "whitelist_remove") as [->|Hrem]; simpl.
  { destruct (wl_eq_star (whitelist info)) eqn:Hstar; simpl.
    - rewrite lookup_insert_eq. simpl. right. exists info, u, (WDict []).
      apply wl_eq_star_spec in Hstar. split_and!; try done.
      right; right; left. eauto.
    - destruct (whitelist info) as [l|s|d] eqn:Hw; simpl; try by left.
      rewrite lookup_insert_eq. simpl. right.
      exists info, u, (WSet (set_discard (JStr u) s)).
      split_and!; try done. do 3 right. eauto. }
  rewrite Hws. simpl. by left.
Qed.

Lemma handle_whitelist_toggle_cases ws data st :
  (handle_whitelist_toggle ws data st).1.1 = st ∨
  ∃ info w,
    CLIENTS st !! ws = Some info ∧
    (handle_whitelist_toggle ws data st).1.1 = store_whitelist ws info w st ∧
    (handle_whitelist_toggle ws data st).2 = Ok tt ∧
    (w = star ∨ w = WSet []).
Proof.
  unfold handle_whitelist_toggle. run.
  destruct (CLIENTS st !! ws) as [info|] eqn:Hws; simpl; [|by left].
  destruct (item_bool "enabled" data) as [[]|]; simpl; [| |by left].
  - rewrite lookup_insert_eq. simpl. right. exists info, star. eauto.
  - rewrite lookup_insert_eq. simpl. right. exists info, (WSet []). eauto.
Qed.

Lemma bind_lift_ok {A B} (a : A) (k : A → M B) st :
  bind (lift (Ok a)) k st = k a st.
Proof. unfold bind, lift. by destruct (k a st) as [[? ?] ?]. Qed.

(** Dispatch of a valid frame of type [t]. *)
Lemma handle_frame_dispatch ws data t st :
  validate_schema data = true → item_str "type" data = Ok t →
  handle_frame ws (Json (JDict data)) st =
    if String.eqb t "message" then handle_direct_message ws data st
    else if String.eqb t "whitelist_add" then
      handle_whitelist_command ws data st
    else if String.eqb t "whitelist_remove" then
      handle_whitelist_command ws data st
    else if String.eqb t "whitelist_toggle_wildcard" then
      handle_whitelist_toggle ws data st
    else (st, [], Ok tt).
Proof.
  intros Hv Ht. unfold handle_frame. rewrite Hv, Ht. simpl.
  rewrite bind_lift_ok. unfold handler_map, table_get.
  by string_cases t.
Qed.

(** A valid frame of type [message] goes to the router. *)
Lemma handle_frame_message ws data st :
  validate_schema data = true → type_is "message" data = true →
  handle_frame ws (Json (JDict data)) st = handle_direct_message ws data st.
Proof.
  intros Hv Ht%type_is_item.
  by rewrite (handle_frame_dispatch ws data "message" st Hv Ht).
Qed.

(** A frame leaves the registry as it was or replaces the whitelist entry
    of its sender, in one of the listed ways. *)
Lemma handle_frame_cases ws f st :
  (handle_frame ws f st).1.1 = st ∨
  ∃ info w,
    CLIENTS st !! ws = Some info ∧
    (handle_frame ws f st).1.1 = store_whitelist ws info w st ∧
    (handle_frame ws f st).2 = Ok tt ∧
    (w = star ∨ w = WSet [] ∨ (∃ u, w = WSet [JStr u]) ∨
     (∃ u s, whitelist info = WSet s ∧
        (w = WSet (set_add (JStr u) s) ∨ w = WSet (set_discard (JStr u) s))) ∨
     (w = WDict [] ∧ removes_from_wildcard st ws f)).
Proof.
  destruct f as [|why|[| | | | |data]]; try by left.
  destruct (validate_schema data) eqn:Hv; [|left; simpl; by rewrite Hv].
  destruct (item_str "type" data) as [t|] eqn:Ht;
    [|left; simpl; rewrite Hv; simpl; unfold bind, lift; by rewrite Ht].
  rewrite (handle_frame_dispatch ws data t st Hv Ht).
  destruct (String.eqb_spec t "message");
    [left; apply handle_direct_message_state|].
  assert (Hcmd : (t = "whitelist_add" ∨ t = "whitelist_remove") →
    (handle_whitelist_command ws data st).1.1 = st ∨
    ∃ info w,
      CLIENTS st !! ws = Some info ∧
      (handle_whitelist_command ws data st).1.1 = store_whitelist ws info w st ∧
      (handle_whitelist_command ws data st).2 = Ok tt ∧
      (w = star ∨ w = WSet [] ∨ (∃ u, w = WSet [JStr u]) ∨
       (∃ u s, whitelist info = WSet s ∧
          (w = WSet (set_add (JStr u) s) ∨
           w = WSet (set_discard (JStr u) s))) ∨
       (w = WDict [] ∧ removes_from_wildcard st ws (Json (JDict data))))).
  { intros _.
    destruct (handle_whitelist_command_cases ws data st) as
      [Hsame | (info & u & w & Hws & Hu & Hst & Hres & Hw)]; [by left|].
    right. exists info, w. split_and!; try done.
    destruct Hw as [(_ & _ & ->) | [(_ & s & Hs & ->) |
      [(Hrem & Hstar & ->) | (_ & s & Hs & ->)]]].
    - right; right; left. eauto.
    - do 3 right. left. eauto.
    - do 4 right. split; [done|]. exists data, info.
      split_and!; try done. by apply type_is_item.
    - do 3 right. left. eauto. }
  destruct (String.eqb_spec t "whitelist_add"); [apply Hcmd; by left|].
  destruct (String.eqb_spec t "whitelist_remove"); [apply Hcmd; by right|].
  destruct (String.eqb_spec t "whitelist_toggle_wildcard"); [|by left].
  destruct (handle_whitelist_toggle_cases ws data st) as
    [Hsame | (info & w & Hws & Hst & Hres & [-> | ->])]; [by left| |].
  - right. exists info, star. split_and!; try done. by left.
  - right. exists info, (WSet []). split_and!; try done. right; by left.
Qed.

Lemma handle_frame_inv ws f st :
  registry_inv st → registry_inv (handle_frame ws f st).1.1.
Proof.
  intros Hinv.
  destruct (handle_frame_cases ws f st) as
    [-> | (info & w & Hws & -> & _ & Hw)]; [done|].
  apply set_whitelist_inv; [done | done |].
  pose proof (inv_shape st Hinv ws info Hws) as Hold.
  destruct Hw as [-> | [-> | [[u ->] | [(u & s & Hs & Hw) | [-> _]]]]];
    try done.
  rewrite Hs in Hold. simpl in Hold. destruct Hw as [-> | ->]; simpl.
  - by apply set_add_forallb.
  - by apply set_discard_forallb.
Qed.

Lemma active_step_state ws f st :
  (active_step ws f st).1.1 = (handle_frame ws f st).1.1 ∨
  (active_step ws f st).1.1 =
    (unregister_client ws (handle_frame ws f st).1.1).1.1.
Proof.
  unfold active_step. destruct (handle_frame ws f st) as [[st1 out1] [|e]].
  - by left.
  - right. simpl. by destruct (unregister_client ws st1) as [[? ?] ?].
Qed.

Lemma active_step_inv ws f st :
  registry_inv st → registry_inv (active_step ws f st).1.1.
Proof.
  intros Hinv. destruct (active_step_state ws f st) as [-> | ->].
  - by apply handle_frame_inv.
  - by apply unregister_client_inv, handle_frame_inv.
Qed.

Lemma initial_inv : registry_inv initial.
Proof. split; simpl; try done; intros ? ?; by rewrite lookup_empty. Qed.

(** Every reachable state satisfies the invariant. *)
Lemma reachable_inv st : reachable st → registry_inv st.
Proof.
  induction 1 as [| st ws room ev _ IH Hfresh _ | st ws f _ IH _ | st ws _ IH].
  - apply initial_inv.
  - by apply register_client_inv.
  - by apply active_step_inv.
  - by apply unregister_client_inv.
Qed.

(** ** The router *)

Lemma access_check_deliverable sender recipient :
  wl_shape (whitelist recipient) = true →
  access_check sender recipient = true ↔ deliverable sender recipient.
Proof.
  intros Hshape. unfold access_check, deliverable.
  rewrite andb_true_iff, String.eqb_eq. apply and_iff_compat_l.
  destruct (whitelist recipient) as [l|s|d]; simpl in *.
  - apply list_eq_star_spec in Hshape as ->. simpl. split; [by left | done].
  - rewrite set_contains_str. split.
    + right. eauto.
    + by intros [? | (s' & [= <-] & ?)].
  - apply bool_decide_eq_true in Hshape as ->. simpl. split; [done|].
    by intros [? | (s & ? & _)].
Qed.

Lemma handle_direct_message_absent sws sender data rid st :
  CLIENTS st !! sws = Some sender →
  dict_get "recipient_id" data = Some (JStr rid) →
  USER_ID_MAP st !! rid = None →
  handle_direct_message sws data st =
    (st, [Send sws (generic_failure_msg rid)], Ok tt).
Proof.
  intros Hs Hrid Hnone. unfold handle_direct_message, item_str. run.
  by rewrite Hs, Hrid; simpl; rewrite Hnone.
Qed.

Lemma handle_direct_message_present sws sender data rid payload rws recipient st :
  CLIENTS st !! sws = Some sender →
  dict_get "recipient_id" data = Some (JStr rid) →
  dict_get "payload" data = Some payload →
  USER_ID_MAP st !! rid = Some rws →
  CLIENTS st !! rws = Some recipient →
  handle_direct_message sws data st =
    (st,
     [if access_check sender recipient
      then Send rws (forward_message (user_id sender) payload)
      else Send sws (generic_failure_msg rid)],
     Ok tt).
Proof.
  intros Hs Hrid Hp Hr Hrws.
  unfold handle_direct_message, item_str, dict_item, access_check. run.
  rewrite Hs, Hrid; simpl. rewrite Hr; simpl. rewrite Hrws; simpl.
  destruct (_ && _); simpl; [by rewrite Hp | done].
Qed.

(** C5: for a registered sender and a recipient id present in
    [USER_ID_MAP], the recipient has a session, and the payload is forwarded
    to it exactly when the recipient is in the sender's room and its
    whitelist is the wildcard or a set holding the sender's id; what is
    forwarded is an [incoming_message] with the sender's id and the payload
    as received, and otherwise the sender gets the failure message. *)
Theorem message_forwarded_iff_deliverable st sws sender data rid payload rws :
  reachable st →
  CLIENTS st !! sws = Some sender →
  dict_get "recipient_id" data = Some (JStr rid) →
  dict_get "payload" data = Some payload →
  USER_ID_MAP st !! rid = Some rws →
  ∃ recipient,
    CLIENTS st !! rws = Some recipient ∧ user_id recipient = rid ∧
    (In (Send rws (forward_message (user_id sender) payload))
        (handle_direct_message sws data st).1.2
     ↔ deliverable sender recipient) ∧
    (deliverable sender recipient →
     handle_direct_message sws data st =
       (st, [Send rws (JDict [("type", JStr "incoming_message");
                              ("sender_id", JStr (user_id sender));
                              ("payload", payload)])], Ok tt)) ∧
    (¬ deliverable sender recipient →
     handle_direct_message sws data st =
       (st, [Send sws (generic_failure_msg rid)], Ok tt)).
Proof.
  intros Hreach Hs Hrid Hp Hr.
  apply reachable_inv in Hreach as Hinv.
  destruct (inv_backward st Hinv rid rws Hr) as (recipient & Hrws & Hru).
  exists recipient. split; [done|]. split; [done|].
  pose proof (access_check_deliverable sender recipient
                (inv_shape st Hinv rws recipient Hrws)) as Hiff.
  rewrite (handle_direct_message_present sws sender data rid payload rws
             recipient st Hs Hrid Hp Hr Hrws).
  destruct (access_check sender recipient); simpl.
  - split_and!.
    + split; [intros _; by apply Hiff | intros _; by left].
    + done.
    + intros Hn. destruct Hn. by apply Hiff.
  - assert (Hnot : ¬ deliverable sender recipient).
    { intros Hd. apply Hiff in Hd. discriminate. }
    split_and!; [|done|done].
    split; [|done]. by intros [[=] | []].
Qed.

(** C6: the response to a message whose recipient id is not registered and
    the response to a message whose recipient is registered but not
    deliverable (another room, or the sender not whitelisted) are the same
    single message to the sender, built from the recipient id alone. *)
Theorem failure_response_indistinguishable
    st1 st2 sws sender1 sender2 data rid rws recipient :
  reachable st2 →
  CLIENTS st1 !! sws = Some sender1 →
  CLIENTS st2 !! sws = Some sender2 →
  dict_get "recipient_id" data = Some (JStr rid) →
  USER_ID_MAP st1 !! rid = None →
  USER_ID_MAP st2 !! rid = Some rws →
  CLIENTS st2 !! rws = Some recipient →
  ¬ deliverable sender2 recipient →
  (handle_direct_message sws data st1).1.2 =
    (handle_direct_message sws data st2).1.2 ∧
  (handle_direct_message sws data st1).1.2 =
    [Send sws (JDict [("type", JStr "error");
       ("message", JStr ("Could not deliver message to '" +:+ rid
          +:+ "'. The user may be offline or has not whitelisted you."))])] ∧
  (handle_direct_message sws data st1).2 = Ok tt ∧
  (handle_direct_message sws data st2).2 = Ok tt.
Proof.
  intros Hreach Hs1 Hs2 Hrid Hnone Hr Hrws Hnot.
  apply reachable_inv in Hreach as Hinv.
  rewrite (handle_direct_message_absent sws sender1 data rid st1 Hs1 Hrid Hnone).
  pose proof (access_check_deliverable sender2 recipient
                (inv_shape st2 Hinv rws recipient Hrws)) as Hiff.
  assert (Hcheck : access_check sender2 recipient = false).
  { destruct (access_check sender2 recipient); [|done].
    destruct Hnot. by apply Hiff. }
  unfold handle_direct_message, item_str. run.
  rewrite Hs2, Hrid; simpl. rewrite Hr; simpl. rewrite Hrws; simpl.
  unfold access_check in Hcheck. rewrite Hcheck. done.
Qed.

(** ** The registry *)

Lemma registry_inv_consistent st : registry_inv st → registry_consistent st.
Proof. intros [Hfwd _ Hsize _ _]. by split. Qed.

(** C7: in every reachable state each connection of [CLIENTS] is the one
    [USER_ID_MAP] gives for its user id and the two dictionaries have the
    same size; this still holds after a registration and after a
    deregistration, a successful registration adds the connection to both
    dictionaries and a deregistration removes it from both. *)
Theorem registry_views_consistent st :
  reachable st →
  registry_consistent st ∧
  (∀ ws room ev, CLIENTS st !! ws = None →
     let st' := (register_client ws room ev st).1.1 in
     registry_consistent st' ∧
     ((register_client ws room ev st).2 = Ok true →
      ∃ info, CLIENTS st' !! ws = Some info ∧
        CLIENTS st' = <[ws := info]> (CLIENTS st) ∧
        USER_ID_MAP st' = <[user_id info := ws]> (USER_ID_MAP st) ∧
        size (CLIENTS st') = S (size (CLIENTS st)) ∧
        size (USER_ID_MAP st') = S (size (USER_ID_MAP st)))) ∧
  (∀ ws info, CLIENTS st !! ws = Some info →
     let st' := (unregister_client ws st).1.1 in
     registry_consistent st' ∧
     CLIENTS st' = delete ws (CLIENTS st) ∧
     USER_ID_MAP st' = delete (user_id info) (USER_ID_MAP st) ∧
     S (size (CLIENTS st')) = size (CLIENTS st) ∧
     S (size (USER_ID_MAP st')) = size (USER_ID_MAP st)).
Proof.
  intros Hreach. apply reachable_inv in Hreach as Hinv. split_and!.
  - by apply registry_inv_consistent.
  - intros ws room ev Hfresh. simpl. split.
    + by apply registry_inv_consistent, register_client_inv.
    + destruct (register_client_cases ws room ev st) as
        [[_ Hno] | (data & uid & l & w & _ & _ & _ & _ & _ & Hfree & ->)];
        [done|].
      intros _. simpl. exists (ClientInfo uid room w).
      rewrite lookup_insert_eq, !map_size_insert_None by done. done.
  - intros ws info Hws. simpl. split.
    + by apply registry_inv_consistent, unregister_client_inv.
    + unfold unregister_client. rewrite Hws. simpl.
      rewrite !map_size_delete_Some by eauto using inv_forward.
      pose proof (map_size_ne_0_lookup_2 _ _ (mk_is_Some _ _ Hws)).
      pose proof (map_size_ne_0_lookup_2 _ _
        (mk_is_Some _ _ (inv_forward st Hinv ws info Hws))).
      split_and!; try done; lia.
Qed.

Lemma validate_register_fields data :
  validate_schema data = true → type_is "register" data = true →
  ∃ uid l, dict_get "user_id" data = Some (JStr uid) ∧
           dict_get "whitelist" data = Some (JList l).
Proof.
  unfold validate_schema, type_is.
  destruct (dict_get "type" data) as [[| | |t| |]|]; try discriminate.
  intros Hv ->%String.eqb_eq. revert Hv.
  unfold schema, table_get, forallb, field_ok. simpl.
  destruct (dict_get "user_id" data) as [[]|]; try discriminate.
  destruct (dict_get "whitelist" data) as [[]|]; try discriminate.
  eauto.
Qed.

(** C8: a valid register message whose user id is empty or already in
    [USER_ID_MAP] closes the connection with code 1008, returns failure and
    leaves both dictionaries as they were; and in every reachable state two
    connections with the same user id are the same connection. *)
Theorem conflicting_user_id_rejected :
  (∀ st ws room data uid,
     validate_schema data = true → type_is "register" data = true →
     dict_get "user_id" data = Some (JStr uid) →
     uid = "" ∨ is_Some (USER_ID_MAP st !! uid) →
     register_client ws room (RecvFrame (Json (JDict data))) st =
       (st, [Close ws 1008 "User ID is invalid or already in use."],
        Ok false)) ∧
  (∀ st c1 c2 info1 info2,
     reachable st →
     CLIENTS st !! c1 = Some info1 → CLIENTS st !! c2 = Some info2 →
     user_id info1 = user_id info2 → c1 = c2).
Proof.
  split.
  - intros st ws room data uid Hv Ht Huid Hbad.
    destruct (validate_register_fields data Hv Ht) as (uid' & l & Huid' & Hl).
    simpl. rewrite Hv, Ht. unfold item_str, item_list. run.
    rewrite Huid, Hl. simpl.
    assert (String.eqb uid "" || user_id_in_use uid st = true) as ->; [|done].
    destruct Hbad as [-> | Huse]; [done|].
    unfold user_id_in_use. rewrite bool_decide_eq_true_2 by done.
    apply orb_true_r.
  - intros st c1 c2 info1 info2 Hreach H1 H2 Heq.
    apply reachable_inv in Hreach as Hinv.
    apply (inv_forward st Hinv) in H1, H2. congruence.
Qed.

(** C9, as the code has it: when the registration wait times out, the
    first frame makes [json.loads] raise [json.JSONDecodeError], or the
    connection closes, [register_client] returns failure, sends and closes
    nothing and leaves the registry as it was, and the handler ends there.
    A first frame on which [json.loads] raises another exception (a binary
    frame that is not UTF-8, an integer literal over the digit limit) is
    not caught by the [except] clause: [register_client] does not return
    [False], the exception leaves it and [main_handler]; the registry is as
    it was in that case too. *)
Theorem registration_decode_failure_raises st ws room :
  reachable st → CLIENTS st !! ws = None →
  (∀ ev, ev = RecvTimeout ∨ ev = RecvFrame BadJson ∨ ev = RecvClosed →
     register_client ws room ev st = (st, [], Ok false) ∧
     (∀ path frames, room_of_path path ≠ "" →
        main_handler ws path ev frames st = (st, [], Ok tt))) ∧
  (∀ why,
     register_client ws room (RecvFrame (Unloadable why)) st =
       (st, [], Raise (loads_exn why)) ∧
     (register_client ws room (RecvFrame (Unloadable why)) st).2 ≠ Ok false ∧
     (∀ path frames, room_of_path path ≠ "" →
        main_handler ws path (RecvFrame (Unloadable why)) frames st =
          (st, [], Raise (loads_exn why)))) ∧
  CLIENTS st !! ws = None ∧ (∀ u, USER_ID_MAP st !! u ≠ Some ws).
Proof.
  intros Hreach Hfresh. apply reachable_inv in Hreach as Hinv. split_and!.
  - intros ev Hev.
    assert (Hrun : ∀ r, register_client ws r ev st = (st, [], Ok false)).
    { by destruct Hev as [-> | [-> | ->]]. }
    split; [apply Hrun|].
    intros path frames Hroom. unfold main_handler, open_connection, bind.
    apply String.eqb_neq in Hroom. by rewrite Hroom, Hrun.
  - intros why. split_and!; [done | done |].
    intros path frames Hroom. unfold main_handler, open_connection, bind.
    apply String.eqb_neq in Hroom. by rewrite Hroom.
  - done.
  - intros u Hu. destruct (inv_backward st Hinv u ws Hu) as (? & ? & _).
    congruence.
Qed.

(** C10: a frame of an active connection that passes the schema and has
    type [register] is ignored: nothing is sent, closed or printed and the
    registry, with every session in it, is as it was. *)
Theorem register_frame_ignored_when_active st ws data :
  validate_schema data = true → type_is "register" data = true →
  handle_frame ws (Json (JDict data)) st = (st, [], Ok tt) ∧
  active_step ws (Json (JDict data)) st = (st, [], Ok tt).
Proof.
  intros Hv Ht. apply type_is_item in Ht.
  assert (Hrun : handle_frame ws (Json (JDict data)) st = (st, [], Ok tt)).
  { by rewrite (handle_frame_dispatch ws data "register" st Hv Ht). }
  split; [done|]. unfold active_step. by rewrite Hrun.
Qed.

(** ** The request path *)

Example room_of_path_lobby : room_of_path "/lobby/" = "lobby".
Proof. reflexivity. Qed.

Example room_of_path_slashes : room_of_path "///" = "".
Proof. reflexivity. Qed.

Example room_of_path_inner : room_of_path "/a//b/" = "a//b".
Proof. reflexivity. Qed.

Lemma append_empty_r (s : string) : s +:+ "" = s.
Proof.
  induction s as [|a s IH]; [done|].
  change (String a (s +:+ "") = String a s). by rewrite IH.
Qed.

Lemma append_assoc (s1 s2 s3 : string) :
  (s1 +:+ s2) +:+ s3 = s1 +:+ (s2 +:+ s3).
Proof.
  induction s1 as [|a s1 IH]; [done|].
  change (String a ((s1 +:+ s2) +:+ s3) = String a (s1 +:+ (s2 +:+ s3))).
  by rewrite IH.
Qed.

Lemma last_segment_from_no_slash (cur s : string) :
  contains_char "/" s = false → last_segment_from cur s = cur +:+ s.
Proof.
  revert cur. induction s as [|a s IH]; simpl; intros cur Hs.
  - by rewrite append_empty_r.
  - apply orb_false_elim in Hs as [Ha Hs]. rewrite Ha, IH by done.
    by rewrite append_assoc.
Qed.

(** C4, as the code has it: the room name is the whole request path with
    its leading and trailing ['/'] removed, which is the trailing segment
    when no ['/'] is left inside; a session created on the connection has
    that room name; and when the room name is empty the handler closes the
    connection with code 1008 and ends, whatever would have been received,
    with the registry as it was. *)
Theorem room_name_is_stripped_path st ws path first :
  (room_of_path path = "" →
   ∀ frames, main_handler ws path first frames st =
     (st, [Close ws 1008
             "Room name must be provided in the URL path (e.g., /my-room)."],
      Ok tt)) ∧
  (∀ st' out, open_connection ws path first st = (st', out, Ok true) →
     ∃ info, CLIENTS st' !! ws = Some info ∧
       room_name info = strip "/" path ∧ strip "/" path ≠ "") ∧
  (contains_char "/" (strip "/" path) = false →
   trailing_segment path = strip "/" path).
Proof.
  split_and!.
  - intros Hroom frames. unfold main_handler, open_connection, bind.
    by rewrite Hroom.
  - intros st' out. unfold open_connection.
    destruct (String.eqb_spec (room_of_path path) "") as [|Hne]; [done|].
    destruct (register_client_cases ws (room_of_path path) first st) as
      [[_ Hno] | (data & uid & l & w & _ & _ & _ & _ & _ & _ & ->)].
    + intros Hrun. by rewrite Hrun in Hno.
    + intros [= <- _]. simpl. rewrite lookup_insert_eq. eauto.
  - intros Hno. unfold trailing_segment.
    by rewrite last_segment_from_no_slash.
Qed.

(** ** The whitelist commands *)

(** C2, as the code has it: [whitelist_remove] on a session whose
    whitelist is the wildcard stores the empty dict, which admits no
    sender, and the acknowledgement carries that dict as
    [current_whitelist]. *)
Theorem whitelist_remove_on_wildcard st ws info data u :
  CLIENTS st !! ws = Some info → whitelist info = star →
  validate_schema data = true → type_is "whitelist_remove" data = true →
  dict_get "user_id" data = Some (JStr u) →
  handle_whitelist_command ws data st =
    (store_whitelist ws info (WDict []) st,
     [Send ws (JDict [("type", JStr "whitelist_updated");
                      ("message", JStr ("User '" +:+ u +:+ "' was removed."));
                      ("current_whitelist", JDict [])])],
     Ok tt) ∧
  (∀ sender room,
     access_check sender (ClientInfo (user_id info) room (WDict [])) = false).
Proof.
  intros Hws Hstar Hv Ht Hu. split.
  - apply type_is_item in Ht.
    unfold handle_whitelist_command. run. rewrite Hws. simpl.
    unfold item_str at 1. rewrite Hu. simpl. rewrite Ht. simpl.
    rewrite Hstar. simpl. rewrite lookup_insert_eq. simpl. done.
  - intros sender room. unfold access_check. simpl. apply andb_false_r.
Qed.

(** * Further properties of the code *)

(** ** [set(whitelist)] *)

Lemma py_eq_refl (x : json) : hashable x = true → py_eq x x = true.
Proof.
  destruct x; simpl; try done; intros _.
  - by destruct b.
  - apply Z.eqb_refl.
  - apply String.eqb_refl.
Qed.

Lemma set_contains_In (x : json) (s : pyset) :
  hashable x = true → In x s → set_contains x s = true.
Proof.
  intros Hx Hin. unfold set_contains. apply existsb_exists.
  exists x. split; [done | by apply py_eq_refl].
Qed.

Lemma set_add_In_str (u : string) (x : json) (s : pyset) :
  In (JStr u) (set_add x s) ↔ In (JStr u) s ∨ x = JStr u.
Proof.
  clear stdout_encodes set_iter. unfold set_add. destruct (set_contains x s) eqn:Hc.
  - split; [by left|]. intros [? | ->]; [done|]. by apply set_contains_str.
  - rewrite in_app_iff. simpl. tauto.
Qed.

Lemma set_add_NoDup (x : json) (s : pyset) :
  hashable x = true → NoDup s → NoDup (set_add x s).
Proof.
  intros Hx Hs. unfold set_add. destruct (set_contains x s) eqn:Hc; [done|].
  apply NoDup_app. split_and!; [done | | apply NoDup_singleton].
  intros y Hy ->%list_elem_of_singleton.
  apply list_elem_of_In, (set_contains_In _ _ Hx) in Hy. congruence.
Qed.

Lemma set_of_list_from_spec (l : list json) (acc : pyset) :
  if forallb hashable l then
    ∃ s, set_of_list_from acc l = Ok s ∧
      (NoDup acc → NoDup s) ∧
      ∀ u, In (JStr u) s ↔ In (JStr u) acc ∨ In (JStr u) l
  else set_of_list_from acc l = Raise TypeError.
Proof.
  clear stdout_encodes set_iter. revert acc. induction l as [|x l IH]; simpl; intros acc.
  - exists acc. split_and!; [done | done | tauto].
  - destruct (hashable x) eqn:Hx; simpl; [|done].
    specialize (IH (set_add x acc)).
    destruct (forallb hashable l); [|done].
    destruct IH as (s & Hs & Hnd & Hin). exists s. split_and!; [done | |].
    + intros Hacc. by apply Hnd, set_add_NoDup.
    + intros u. rewrite Hin, set_add_In_str. split; intros H; [|].
      * destruct H as [[? | ->] | ?]; [by left | right; by left | right; by right].
      * destruct H as [? | [? | ?]];
          [left; by left | left; right; done | by right].
Qed.

Lemma make_whitelist_spec (l : list json) :
  if forallb hashable l then
    ∃ w, make_whitelist l = Ok w ∧
      (l = [JStr "*"] → w = star) ∧
      (l ≠ [JStr "*"] → ∃ s, w = WSet s ∧ NoDup s) ∧
      ∀ u, whitelisted u w = true ↔ l = [JStr "*"] ∨ In (JStr u) l
  else make_whitelist l = Raise TypeError.
Proof.
  clear stdout_encodes set_iter. unfold make_whitelist.
  destruct (list_eq_star l) eqn:Hstar.
  - apply list_eq_star_spec in Hstar as ->. simpl. exists star.
    split_and!; [done | done | done |]. intros u. split; [by left | done].
  - assert (Hne : l ≠ [JStr "*"]).
    { intros Heq. apply list_eq_star_spec in Heq. congruence. }
    pose proof (set_of_list_from_spec l []) as Hspec. unfold set_of_list.
    destruct (forallb hashable l); [|by rewrite Hspec].
    destruct Hspec as (s & -> & Hnd & Hin). exists (WSet s).
    split_and!; [done | done | |].
    + intros _. exists s. split; [done|]. apply Hnd. constructor.
    + intros u. unfold whitelisted. simpl. rewrite set_contains_str, Hin.
      simpl. tauto.
Qed.

(** ** Registration outcomes *)

(** The run of [register_client] on a valid register message. *)
Lemma register_client_valid st ws room data uid l :
  validate_schema data = true → type_is "register" data = true →
  dict_get "user_id" data = Some (JStr uid) →
  dict_get "whitelist" data = Some (JList l) →
  register_client ws room (RecvFrame (Json (JDict data))) st =
    if String.eqb uid "" || user_id_in_use uid st then
      (st, [Close ws 1008 "User ID is invalid or already in use."], Ok false)
    else
      match make_whitelist l with
      | Ok w =>
          (State (<[ws := ClientInfo uid room w]> (CLIENTS st))
                 (<[uid := ws]> (USER_ID_MAP st)),
           (if stdout_encodes (registered_line uid room)
            then [Print (registered_line uid room)] else []),
           (if stdout_encodes (registered_line uid room)
            then Ok true else Raise UnicodeEncodeError))
      | Raise e => (st, [], Raise e)
      end.
Proof.
  intros Hv Ht Hu Hl. simpl. rewrite Hv, Ht. unfold item_str, item_list. run.
  rewrite Hu, Hl. simpl.
  destruct (String.eqb uid "" || user_id_in_use uid st); [done|].
  destruct (make_whitelist l); [|done].
  simpl. unfold print_line. by destruct (stdout_encodes _).
Qed.

Lemma user_id_in_use_false uid st :
  user_id_in_use uid st = false ↔ USER_ID_MAP st !! uid = None.
Proof.
  unfold user_id_in_use. rewrite bool_decide_eq_false.
  by rewrite eq_None_not_Some.
Qed.

Lemma main_handler_not_entered st ws path first frames out r :
  room_of_path path ≠ "" → r ≠ Ok true →
  register_client ws (room_of_path path) first st = (st, out, r) →
  main_handler ws path first frames st =
    (st, out, match r with Ok _ => Ok tt | Raise e => Raise e end).
Proof.
  intros Hroom%String.eqb_neq Hr Hrun.
  unfold main_handler, open_connection, bind. rewrite Hroom, Hrun.
  destruct r as [[]|e]; simpl; [done | | done].
  by rewrite app_nil_r.
Qed.

(** X1: [register_client] returns [True] exactly when the first frame is a
    dict that passes the schema with type [register], its user id is
    non-empty and not in [USER_ID_MAP], every element of its whitelist is
    hashable, and the standard output can encode the line it prints. *)
Theorem register_client_succeeds_iff st ws room ev :
  (register_client ws room ev st).2 = Ok true ↔
  ∃ data uid l,
    ev = RecvFrame (Json (JDict data)) ∧
    validate_schema data = true ∧ type_is "register" data = true ∧
    dict_get "user_id" data = Some (JStr uid) ∧
    dict_get "whitelist" data = Some (JList l) ∧
    uid ≠ "" ∧ USER_ID_MAP st !! uid = None ∧
    forallb hashable l = true ∧
    stdout_encodes (registered_line uid room) = true.
Proof.
  split.
  - destruct ev as [| |[|why|[| | | | |data]]]; try discriminate.
    destruct (validate_schema data) eqn:Hv;
      [|simpl; rewrite Hv; discriminate].
    destruct (type_is "register" data) eqn:Ht;
      [|simpl; rewrite Hv, Ht; discriminate].
    destruct (validate_register_fields data Hv Ht) as (uid & l & Hu & Hl).
    rewrite (register_client_valid st ws room data uid l Hv Ht Hu Hl).
    destruct (String.eqb_spec uid "") as [|Hne]; [discriminate|]. simpl.
    destruct (user_id_in_use uid st) eqn:Huse; [discriminate|].
    pose proof (make_whitelist_spec l) as Hspec.
    destruct (forallb hashable l) eqn:Hh; [|rewrite Hspec; discriminate].
    destruct Hspec as (w & -> & _). simpl.
    destruct (stdout_encodes (registered_line uid room)) eqn:Henc;
      [|discriminate].
    intros _. exists data, uid, l. split_and!; try done.
    by apply user_id_in_use_false.
  - intros (data & uid & l & -> & Hv & Ht & Hu & Hl & Hne & Hfree & Hh & Henc).
    rewrite (register_client_valid st ws room data uid l Hv Ht Hu Hl).
    apply String.eqb_neq in Hne. apply user_id_in_use_false in Hfree.
    rewrite Hne, Hfree. simpl.
    pose proof (make_whitelist_spec l) as Hspec. rewrite Hh in Hspec.
    destruct Hspec as (w & -> & _). simpl. by rewrite Henc.
Qed.

(** X2: when the first frame is a dict that is not a valid register
    message, [register_client] closes the connection with code 1002,
    returns [False] and leaves both dictionaries as they were, and the
    handler ends without reading another frame. *)
Theorem invalid_first_message_closes_1002 st ws room data :
  validate_schema data && type_is "register" data = false →
  register_client ws room (RecvFrame (Json (JDict data))) st =
    (st, [Close ws 1002
            "Protocol error: First message must be a valid 'register' type."],
     Ok false) ∧
  (∀ path frames, room_of_path path ≠ "" →
     main_handler ws path (RecvFrame (Json (JDict data))) frames st =
       (st, [Close ws 1002
               "Protocol error: First message must be a valid 'register' type."],
        Ok tt)).
Proof.
  intros Hbad.
  assert (Hrun : ∀ r, register_client r room (RecvFrame (Json (JDict data))) st =
    (st, [Close r 1002
            "Protocol error: First message must be a valid 'register' type."],
     Ok false)).
  { intros r. simpl. by rewrite Hbad. }
  split; [apply Hrun|]. intros path frames Hroom.
  eapply (main_handler_not_entered st ws path _ frames _ (Ok false));
    [done | done |].
  simpl. by rewrite Hbad.
Qed.

(** X3: two first frames make [register_client] raise instead of
    returning: a decoded value that is not a dict ([AttributeError]), and
    an otherwise acceptable register message whose whitelist holds a list
    or a dict ([TypeError]).  In both cases nothing is sent or closed, the
    dictionaries are as they were and the exception leaves the handler. *)
Theorem registration_uncaught_exceptions st ws :
  (∀ v path frames,
     is_dict v = false → room_of_path path ≠ "" →
     main_handler ws path (RecvFrame (Json v)) frames st =
       (st, [], Raise AttributeError)) ∧
  (∀ data uid l path frames,
     validate_schema data = true → type_is "register" data = true →
     dict_get "user_id" data = Some (JStr uid) →
     dict_get "whitelist" data = Some (JList l) →
     uid ≠ "" → USER_ID_MAP st !! uid = None →
     forallb hashable l = false → room_of_path path ≠ "" →
     main_handler ws path (RecvFrame (Json (JDict data))) frames st =
       (st, [], Raise TypeError)).
Proof.
  split.
  - intros v path frames Hv Hroom.
    apply (main_handler_not_entered st ws path _ frames [] (Raise AttributeError));
      [done | done |].
    by destruct v.
  - intros data uid l path frames Hv Ht Hu Hl Hne Hfree Hh Hroom.
    apply (main_handler_not_entered st ws path _ frames [] (Raise TypeError));
      [done | done |].
    rewrite (register_client_valid st ws _ data uid l Hv Ht Hu Hl).
    apply String.eqb_neq in Hne. apply user_id_in_use_false in Hfree.
    rewrite Hne, Hfree. simpl.
    pose proof (make_whitelist_spec l) as Hspec. rewrite Hh in Hspec.
    by rewrite Hspec.
Qed.

(** X4: an acceptable register message (valid, user id non-empty and
    free, whitelist elements hashable) stores a session with the user id of
    the message and the room of the connection in both dictionaries; its
    whitelist admits a sender id exactly when the list of the message is
    [["*"]] or holds that id, and a set stored for another list holds no
    value twice.  [register_client] then prints the registration line and
    returns [True]; when the standard output cannot encode that line it
    raises [UnicodeEncodeError] instead, with the session already
    stored. *)
Theorem registered_whitelist_admits st ws room data uid l :
  validate_schema data = true → type_is "register" data = true →
  dict_get "user_id" data = Some (JStr uid) →
  dict_get "whitelist" data = Some (JList l) →
  uid ≠ "" → USER_ID_MAP st !! uid = None → forallb hashable l = true →
  ∃ w,
    (register_client ws room (RecvFrame (Json (JDict data))) st).1.1 =
      State (<[ws := ClientInfo uid room w]> (CLIENTS st))
            (<[uid := ws]> (USER_ID_MAP st)) ∧
    (register_client ws room (RecvFrame (Json (JDict data))) st).1.2 =
      (if stdout_encodes (registered_line uid room)
       then [Print (registered_line uid room)] else []) ∧
    (register_client ws room (RecvFrame (Json (JDict data))) st).2 =
      (if stdout_encodes (registered_line uid room)
       then Ok true else Raise UnicodeEncodeError) ∧
    (l = [JStr "*"] → w = star) ∧
    (l ≠ [JStr "*"] → ∃ s, w = WSet s ∧ NoDup s) ∧
    (∀ sender_id,
       whitelisted sender_id w = true ↔
       l = [JStr "*"] ∨ In (JStr sender_id) l).
Proof.
  intros Hv Ht Hu Hl Hne Hfree Hh.
  rewrite (register_client_valid st ws room data uid l Hv Ht Hu Hl).
  apply String.eqb_neq in Hne. apply user_id_in_use_false in Hfree.
  rewrite Hne, Hfree. simpl.
  pose proof (make_whitelist_spec l) as Hspec. rewrite Hh in Hspec.
  destruct Hspec as (w & -> & Hstar & Hset & Hadm). by exists w.
Qed.

(** ** Whitelist commands on each representation *)

Lemma set_discard_In_str (u x : string) (s : pyset) :
  In (JStr x) (set_discard (JStr u) s) ↔ x ≠ u ∧ In (JStr x) s.
Proof.
  unfold set_discard. rewrite <- !list_elem_of_In, list_elem_of_filter.
  simpl. rewrite String.eqb_neq. split; intros [Hne Hin]; split; congruence.
Qed.

Lemma set_discard_absent (u : string) (s : pyset) :
  ¬ In (JStr u) s → set_discard (JStr u) s = s.
Proof.
  unfold set_discard. induction s as [|y s IH]; [done|].
  intros Hnot. rewrite filter_cons.
  destruct (decide (py_eq (JStr u) y = false)) as [_|Hy].
  - f_equal. apply IH. intros Hin. apply Hnot. by right.
  - destruct Hnot. left. apply not_false_is_true, py_eq_str in Hy. done.
Qed.

Lemma set_add_present (x : json) (s : pyset) :
  hashable x = true → In x s → set_add x s = s.
Proof.
  intros Hx Hin. unfold set_add. by rewrite set_contains_In.
Qed.

(** The run of [handle_whitelist_command] once the sender and the two
    fields of the message are known. *)
Lemma handle_whitelist_command_run st ws info data command u :
  CLIENTS st !! ws = Some info →
  item_str "type" data = Ok command →
  dict_get "user_id" data = Some (JStr u) →
  ∀ w action_text,
    (command = "whitelist_add" ∧
       ((whitelist info = star ∧ w = WSet [JStr u] ∧
           action_text = "converted from wildcard and added") ∨
        (∃ s, whitelist info = WSet s ∧ w = WSet (set_add (JStr u) s) ∧
           action_text = "added"))) ∨
    (command = "whitelist_remove" ∧ action_text = "removed" ∧
       ((whitelist info = star ∧ w = WDict []) ∨
        (∃ s, whitelist info = WSet s ∧ w = WSet (set_discard (JStr u) s)))) →
    handle_whitelist_command ws data st =
      (store_whitelist ws info w st,
       [Send ws (whitelist_updated
          ("User '" +:+ u +:+ "' was " +:+ action_text +:+ ".")
          match w with
          | WSet s => JList (set_iter s)
          | WList l => JList l
          | WDict d => JDict d
          end)],
       Ok tt).
Proof.
  intros Hws Ht Hu w action_text Hcase.
  unfold handle_whitelist_command. run. rewrite Hws. simpl.
  unfold item_str at 1. rewrite Hu. simpl. rewrite Ht. simpl.
  destruct Hcase as [(-> & [(Hstar & -> & ->) | (s & Hs & -> & ->)]) |
    (-> & -> & [(Hstar & ->) | (s & Hs & ->)])]; simpl.
  - rewrite Hstar. simpl. by rewrite lookup_insert_eq.
  - rewrite Hs. simpl. by rewrite lookup_insert_eq.
  - rewrite Hstar. simpl. by rewrite lookup_insert_eq.
  - rewrite Hs. simpl. by rewrite lookup_insert_eq.
Qed.

(** X5: [whitelist_add] sent by a session whose whitelist is the wildcard
    replaces it by the set holding only the added id, so afterwards the
    whitelist admits that id and no other; the acknowledgement says
    "converted from wildcard and added". *)
Theorem whitelist_add_narrows_wildcard st ws info data u :
  CLIENTS st !! ws = Some info → whitelist info = star →
  type_is "whitelist_add" data = true →
  dict_get "user_id" data = Some (JStr u) →
  handle_whitelist_command ws data st =
    (store_whitelist ws info (WSet [JStr u]) st,
     [Send ws (JDict [("type", JStr "whitelist_updated");
        ("message",
         JStr ("User '" +:+ u +:+ "' was converted from wildcard and added."));
        ("current_whitelist", JList (set_iter [JStr u]))])],
     Ok tt) ∧
  (∀ x, whitelisted x (WSet [JStr u]) = true ↔ x = u).
Proof.
  intros Hws Hstar Ht%type_is_item Hu. split.
  - rewrite (handle_whitelist_command_run st ws info data "whitelist_add" u
               Hws Ht Hu (WSet [JStr u]) "converted from wildcard and added");
      [done|]. left. split; [done|]. by left.
  - intros x. unfold whitelisted. simpl. rewrite orb_false_r, String.eqb_eq.
    done.
Qed.

(** X6: [whitelist_add] sent by a session whose whitelist is a set adds
    the id to it: afterwards the whitelist admits the added id and exactly
    the ids it admitted before, and adding an id that is already a member
    leaves the set as it was. *)
Theorem whitelist_add_on_set st ws info data u s :
  CLIENTS st !! ws = Some info → whitelist info = WSet s →
  type_is "whitelist_add" data = true →
  dict_get "user_id" data = Some (JStr u) →
  handle_whitelist_command ws data st =
    (store_whitelist ws info (WSet (set_add (JStr u) s)) st,
     [Send ws (JDict [("type", JStr "whitelist_updated");
        ("message", JStr ("User '" +:+ u +:+ "' was added."));
        ("current_whitelist", JList (set_iter (set_add (JStr u) s)))])],
     Ok tt) ∧
  (∀ x, whitelisted x (WSet (set_add (JStr u) s)) = true ↔
        x = u ∨ whitelisted x (WSet s) = true) ∧
  (In (JStr u) s → set_add (JStr u) s = s).
Proof.
  intros Hws Hs Ht%type_is_item Hu. split_and!.
  - rewrite (handle_whitelist_command_run st ws info data "whitelist_add" u
               Hws Ht Hu (WSet (set_add (JStr u) s)) "added"); [done|].
    left. split; [done|]. right. eauto.
  - intros x. unfold whitelisted. simpl.
    rewrite !set_contains_str, set_add_In_str. split.
    + intros [? | [= ->]]; [by right | by left].
    + intros [-> | ?]; [by right | by left].
  - by apply set_add_present.
Qed.

(** X7: [whitelist_remove] sent by a session whose whitelist is a set
    discards the id: afterwards the whitelist does not admit the removed id
    and admits exactly the other ids it admitted before; removing an id
    that is not a member is not an error and leaves the set as it was. *)
Theorem whitelist_remove_on_set st ws info data u s :
  CLIENTS st !! ws = Some info → whitelist info = WSet s →
  type_is "whitelist_remove" data = true →
  dict_get "user_id" data = Some (JStr u) →
  handle_whitelist_command ws data st =
    (store_whitelist ws info (WSet (set_discard (JStr u) s)) st,
     [Send ws (JDict [("type", JStr "whitelist_updated");
        ("message", JStr ("User '" +:+ u +:+ "' was removed."));
        ("current_whitelist", JList (set_iter (set_discard (JStr u) s)))])],
     Ok tt) ∧
  (∀ x, whitelisted x (WSet (set_discard (JStr u) s)) = true ↔
        x ≠ u ∧ whitelisted x (WSet s) = true) ∧
  (¬ In (JStr u) s → set_discard (JStr u) s = s).
Proof.
  intros Hws Hs Ht%type_is_item Hu. split_and!.
  - rewrite (handle_whitelist_command_run st ws info data "whitelist_remove" u
               Hws Ht Hu (WSet (set_discard (JStr u) s)) "removed"); [done|].
    right. split_and!; [done | done |]. right. eauto.
  - intros x. unfold whitelisted. simpl.
    by rewrite !set_contains_str, set_discard_In_str.
  - apply set_discard_absent.
Qed.

(** X8: [whitelist_toggle_wildcard] overwrites the whitelist of its
    sender whatever it held, also the dict: with [enabled] true by the
    wildcard, which admits every sender id, with [enabled] false by the
    empty set, which admits none; enabling and then disabling leaves the
    registry as disabling alone does. *)
Theorem whitelist_toggle_overwrites st ws info data b :
  CLIENTS st !! ws = Some info →
  dict_get "enabled" data = Some (JBool b) →
  let w := if b then star else WSet [] in
  (handle_whitelist_toggle ws data st).1.1 = store_whitelist ws info w st ∧
  (handle_whitelist_toggle ws data st).2 = Ok tt ∧
  (∃ message current_list,
     (handle_whitelist_toggle ws data st).1.2 =
       [Send ws (whitelist_updated message current_list)] ∧
     (b = true → current_list = JList [JStr "*"])) ∧
  (∀ x, whitelisted x w = b) ∧
  (∀ data_on data_off,
     dict_get "enabled" data_on = Some (JBool true) →
     dict_get "enabled" data_off = Some (JBool false) →
     (handle_whitelist_toggle ws data_off
        (handle_whitelist_toggle ws data_on st).1.1).1.1 =
     (handle_whitelist_toggle ws data_off st).1.1).
Proof.
  intros Hws Hb.
  assert (Hrun : ∀ st' info' d b',
    CLIENTS st' !! ws = Some info' → dict_get "enabled" d = Some (JBool b') →
    (handle_whitelist_toggle ws d st').1.1 =
      store_whitelist ws info' (if b' then star else WSet []) st').
  { intros st' info' d b' Hws' Hb'. unfold handle_whitelist_toggle, item_bool.
    run. rewrite Hws', Hb'. simpl.
    destruct b'; simpl; by rewrite lookup_insert_eq. }
  simpl. split_and!.
  - by apply Hrun.
  - unfold handle_whitelist_toggle, item_bool. run. rewrite Hws, Hb. simpl.
    destruct b; simpl; by rewrite lookup_insert_eq.
  - unfold handle_whitelist_toggle, item_bool. run. rewrite Hws, Hb. simpl.
    destruct b; simpl; rewrite lookup_insert_eq; simpl;
      do 2 eexists; (split; [reflexivity | done]).
  - intros x. by destruct b.
  - intros data_on data_off Hon Hoff.
    rewrite (Hrun st info data_on true Hws Hon).
    rewrite (Hrun st info data_off false Hws Hoff).
    erewrite Hrun; [| by apply lookup_insert_eq | done].
    unfold store_whitelist. simpl. by rewrite insert_insert_eq.
Qed.

(** ** Frames of an active connection *)

(** What validation gives a handler: the type and, for each handled type,
    the fields it reads. *)
Lemma validate_schema_fields (data : dict) :
  validate_schema data = true →
  ∃ t, item_str "type" data = Ok t ∧
    (t = "register" ∨
     (t = "message" ∧
        (∃ r, dict_get "recipient_id" data = Some (JStr r)) ∧
        (∃ p, dict_get "payload" data = Some p)) ∨
     ((t = "whitelist_add" ∨ t = "whitelist_remove") ∧
        (∃ u, dict_get "user_id" data = Some (JStr u))) ∨
     (t = "whitelist_toggle_wildcard" ∧
        (∃ b, dict_get "enabled" data = Some (JBool b)))).
Proof.
  unfold validate_schema, item_str.
  destruct (dict_get "type" data) as [[| | |t| |]|]; try discriminate.
  intros Hv. exists t. split; [done|]. revert Hv.
  unfold schema, table_get. string_cases t;
    unfold forallb, field_ok; simpl; try discriminate.
  - intros _. by left.
  - destruct (dict_get "recipient_id" data) as [[]|]; try discriminate.
    destruct (dict_get "payload" data) as [p|]; try discriminate.
    intros _. right; left. eauto.
  - destruct (dict_get "user_id" data) as [[]|]; try discriminate.
    intros _. right; right; left. eauto.
  - destruct (dict_get "user_id" data) as [[]|]; try discriminate.
    intros _. right; right; left. eauto.
  - destruct (dict_get "enabled" data) as [[]|]; try discriminate.
    intros _. do 3 right. eauto.
Qed.

Lemma handle_whitelist_toggle_run st ws info data b :
  CLIENTS st !! ws = Some info →
  dict_get "enabled" data = Some (JBool b) →
  ∃ message current_list,
    handle_whitelist_toggle ws data st =
      (store_whitelist ws info (if b then star else WSet []) st,
       [Send ws (whitelist_updated message current_list)], Ok tt).
Proof.
  intros Hws Hb. unfold handle_whitelist_toggle, item_bool. run.
  rewrite Hws, Hb. simpl.
  destruct b; simpl; rewrite lookup_insert_eq; simpl; eauto.
Qed.

Lemma handle_whitelist_command_dict st ws info data u :
  CLIENTS st !! ws = Some info → whitelist info = WDict [] →
  dict_get "user_id" data = Some (JStr u) →
  item_str "type" data = Ok "whitelist_add" ∨
    item_str "type" data = Ok "whitelist_remove" →
  handle_whitelist_command ws data st = (st, [], Raise AttributeError).
Proof.
  intros Hws Hw Hu Ht. unfold handle_whitelist_command. run.
  rewrite Hws. simpl. unfold item_str at 1. rewrite Hu. simpl.
  destruct Ht as [-> | ->]; simpl; by rewrite Hw.
Qed.

Lemma wl_shape_cases (w : whitelist_value) :
  wl_shape w = true → w = star ∨ (∃ s, w = WSet s) ∨ w = WDict [].
Proof.
  destruct w as [l|s|d]; simpl.
  - intros ->%list_eq_star_spec. by left.
  - right; left. eauto.
  - intros ->%bool_decide_eq_true. by do 2 right.
Qed.

(** X9: a frame handled for a connection changes nothing in the registry
    but, at most, the whitelist of that connection's own session:
    [USER_ID_MAP], every other session, and the user id and room of the
    sender's session are as they were, and no session appears or
    disappears. *)
Theorem frame_touches_only_sender_whitelist st ws f :
  let st' := (handle_frame ws f st).1.1 in
  USER_ID_MAP st' = USER_ID_MAP st ∧
  (∀ c, c ≠ ws → CLIENTS st' !! c = CLIENTS st !! c) ∧
  match CLIENTS st !! ws with
  | None => CLIENTS st' !! ws = None
  | Some info =>
      ∃ w, CLIENTS st' !! ws =
             Some (ClientInfo (user_id info) (room_name info) w)
  end.
Proof.
  simpl.
  destruct (handle_frame_cases ws f st) as
    [-> | (info & w & Hws & -> & _ & _)].
  - split_and!; [done | done |].
    destruct (CLIENTS st !! ws) as [[u r w]|]; [|done]. by exists w.
  - rewrite Hws. simpl. split_and!; [done | |].
    + intros c Hc. by rewrite lookup_insert_ne.
    + exists w. by rewrite lookup_insert_eq.
Qed.



Lemma unregister_client_removed ws st :
  CLIENTS (unregister_client ws st).1.1 !! ws = None.
Proof.
  unfold unregister_client.
  destruct (CLIENTS st !! ws) as [info|] eqn:Hws; simpl; [|done].
  apply lookup_delete_eq.
Qed.

Lemma registry_inv_no_entry ws st :
  registry_inv st → CLIENTS st !! ws = None →
  ∀ u, USER_ID_MAP st !! u ≠ Some ws.
Proof.
  intros Hinv Hws u Hu.
  destruct (inv_backward st Hinv u ws Hu) as (? & ? & _). congruence.
Qed.

(** X11: when the handler of a frame raises, the [finally] clause runs:
    the exception leaves the loop, and in the state left behind the
    connection is in neither dictionary while the two dictionaries still
    agree. *)
Theorem raising_frame_ends_session st ws f e :
  reachable st → (handle_frame ws f st).2 = Raise e →
  let st' := (active_step ws f st).1.1 in
  (active_step ws f st).2 = Raise e ∧
  st' = (unregister_client ws (handle_frame ws f st).1.1).1.1 ∧
  CLIENTS st' !! ws = None ∧
  (∀ u, USER_ID_MAP st' !! u ≠ Some ws) ∧
  registry_consistent st'.
Proof.
  intros Hreach%reachable_inv Hraise. simpl.
  pose proof (handle_frame_inv ws f st Hreach) as Hinv1.
  apply (unregister_client_inv ws) in Hinv1 as Hinv2.
  pose proof (unregister_client_removed ws (handle_frame ws f st).1.1) as Hrem.
  unfold active_step in *.
  destruct (handle_frame ws f st) as [[st1 out1] r]. simpl in *. subst r.
  destruct (unregister_client ws st1) as [[st2 out2] r2]. simpl in *.
  split_and!; try done.
  - by apply registry_inv_no_entry.
  - by apply registry_inv_consistent.
Qed.

Lemma handle_direct_message_output st ws data :
  one_send_to st ws (handle_direct_message ws data st).1.2.
Proof.
  unfold handle_direct_message. run.
  destruct (CLIENTS st !! ws) as [sender|]; simpl; [|by left].
  destruct (item_str "recipient_id" data) as [rid|]; simpl; [|by left].
  destruct (USER_ID_MAP st !! rid) as [rws|] eqn:Hr; simpl;
    [|right; eauto 10].
  destruct (CLIENTS st !! rws) as [recipient|]; simpl; [|by left].
  destruct (_ && _); simpl; [|right; eauto 10].
  destruct (dict_item "payload" data); simpl; [|by left].
  right. exists rws. eauto 10.
Qed.

Lemma handle_whitelist_command_output st ws data :
  one_send_to st ws (handle_whitelist_command ws data st).1.2.
Proof.
  unfold handle_whitelist_command. run.
  destruct (CLIENTS st !! ws) as [info|] eqn:Hws; simpl; [|by left].
  destruct (item_str "user_id" data) as [u|]; simpl; [|by left].
  destruct (item_str "type" data) as [command|]; simpl; [|by left].
  destruct (String.eqb command "whitelist_add"); simpl.
  { destruct (wl_eq_star (whitelist info)); simpl.
    - rewrite lookup_insert_eq. simpl. right. eauto 10.
    - destruct (whitelist info); simpl; try by left.
      rewrite lookup_insert_eq. simpl. right. eauto 10. }
  destruct (String.eqb command "whitelist_remove"); simpl.
  { destruct (wl_eq_star (whitelist info)); simpl.
    - rewrite lookup_insert_eq. simpl. right. eauto 10.
    - destruct (whitelist info); simpl; try by left.
      rewrite lookup_insert_eq. simpl. right. eauto 10. }
  rewrite Hws. simpl. right. eauto 10.
Qed.

Lemma handle_whitelist_toggle_output st ws data :
  one_send_to st ws (handle_whitelist_toggle ws data st).1.2.
Proof.
  unfold handle_whitelist_toggle. run.
  destruct (CLIENTS st !! ws) as [info|] eqn:Hws; simpl; [|by left].
  destruct (item_bool "enabled" data) as [[]|]; simpl; [| |by left];
    rewrite lookup_insert_eq; simpl; right; eauto 10.
Qed.

(** X12: the handler of one frame never closes a connection and never
    prints; it sends at most one message, to the sender of the frame or to
    a connection registered in [USER_ID_MAP]; and it sends nothing at all
    unless the frame is a dict that passes the schema with one of the four
    handled types. *)
Theorem frame_output st ws f :
  let out := (handle_frame ws f st).1.2 in
  (length out ≤ 1)%nat ∧
  (∀ e, In e out →
     ∃ c data, e = Send c data ∧
       (c = ws ∨ ∃ rid, USER_ID_MAP st !! rid = Some c)) ∧
  (out ≠ [] →
     ∃ data t, f = Json (JDict data) ∧ validate_schema data = true ∧
       item_str "type" data = Ok t ∧ handled_type t).
Proof.
  simpl.
  assert (Hone : one_send_to st ws (handle_frame ws f st).1.2 ∧
    ((handle_frame ws f st).1.2 ≠ [] →
     ∃ data t, f = Json (JDict data) ∧ validate_schema data = true ∧
       item_str "type" data = Ok t ∧ handled_type t)).
  { destruct f as [|why|[| | | | |data]]; try (split; [by left | done]).
    destruct (validate_schema data) eqn:Hv;
      [|simpl; rewrite Hv; split; [by left | done]].
    destruct (item_str "type" data) as [t|] eqn:Ht;
      [|simpl; rewrite Hv; simpl; unfold bind, lift; rewrite Ht;
        split; [by left | done]].
    rewrite (handle_frame_dispatch ws data t st Hv Ht). unfold handled_type.
    destruct (String.eqb_spec t "message");
      [split; [apply handle_direct_message_output | eauto 10]|].
    destruct (String.eqb_spec t "whitelist_add");
      [split; [apply handle_whitelist_command_output | eauto 10]|].
    destruct (String.eqb_spec t "whitelist_remove");
      [split; [apply handle_whitelist_command_output | eauto 10]|].
    destruct (String.eqb_spec t "whitelist_toggle_wildcard");
      [split; [apply handle_whitelist_toggle_output | eauto 10]|].
    split; [by left | done]. }
  destruct Hone as [[-> | (c & d & -> & Hc)] Hsilent].
  - split_and!; [simpl; lia | by intros e [] | done].
  - split_and!; [simpl; lia | | done].
    intros e [<- | []]. eauto.
Qed.

(** X13: room isolation.  When the recipient id names a session in
    another room than the sender's, the router sends the failure message to
    the sender and nothing to the recipient, whatever the whitelist of the
    recipient is, the wildcard included. *)
Theorem other_room_never_delivered st sws sender data rid rws recipient :
  CLIENTS st !! sws = Some sender →
  dict_get "recipient_id" data = Some (JStr rid) →
  USER_ID_MAP st !! rid = Some rws →
  CLIENTS st !! rws = Some recipient →
  room_name recipient ≠ room_name sender →
  handle_direct_message sws data st =
    (st, [Send sws (generic_failure_msg rid)], Ok tt).
Proof.
  intros Hs Hrid Hr Hrws Hroom%String.eqb_neq.
  unfold handle_direct_message, item_str. run.
  rewrite Hs, Hrid; simpl. rewrite Hr; simpl. rewrite Hrws; simpl.
  by rewrite Hroom.
Qed.

(** ** The life of a connection *)

(** X14: deregistration removes the connection from [CLIENTS]; run a
    second time, or on a connection that was never registered, it changes
    nothing and prints nothing. *)
Theorem unregister_client_idempotent st ws :
  let st' := (unregister_client ws st).1.1 in
  CLIENTS st' !! ws = None ∧
  unregister_client ws st' = (st', [], Ok tt) ∧
  (CLIENTS st !! ws = None → unregister_client ws st = (st, [], Ok tt)).
Proof.
  simpl. pose proof (unregister_client_removed ws st) as Hrem.
  split_and!; [done | |].
  - unfold unregister_client at 1 3. by rewrite Hrem.
  - intros Hnone. unfold unregister_client. by rewrite Hnone.
Qed.

Lemma unregister_with_session st ws info :
  CLIENTS st !! ws = None → USER_ID_MAP st !! user_id info = None →
  (unregister_client ws (with_session st ws info)).1.1 = st.
Proof.
  intros Hws Hu. unfold unregister_client, with_session. simpl.
  rewrite lookup_insert_eq. simpl.
  rewrite !delete_insert_eq, !delete_id by done. by destruct st.
Qed.

(** X15: a registration that succeeds on a connection not yet in
    [CLIENTS], followed by the deregistration of that connection, gives
    back the registry as it was before, in both dictionaries. *)
Theorem register_then_unregister st ws room ev :
  CLIENTS st !! ws = None →
  (register_client ws room ev st).2 = Ok true →
  (unregister_client ws (register_client ws room ev st).1.1).1.1 = st.
Proof.
  intros Hws Hok.
  destruct (register_client_cases ws room ev st) as
    [[_ Hno] | (data & uid & l & w & _ & _ & _ & _ & _ & Hfree & Hrun)];
    [done|].
  rewrite Hrun. simpl.
  by apply (unregister_with_session st ws (ClientInfo uid room w)).
Qed.

Lemma handle_frame_with_session st ws info f :
  ∃ w, (handle_frame ws f (with_session st ws info)).1.1 =
       with_session st ws (ClientInfo (user_id info) (room_name info) w).
Proof.
  destruct (handle_frame_cases ws f (with_session st ws info)) as
    [-> | (info' & w & Hws & -> & _ & _)].
  - exists (whitelist info). by destruct info.
  - exists w. simpl in Hws. rewrite lookup_insert_eq in Hws.
    injection Hws as <-. unfold store_whitelist, with_session. simpl.
    by rewrite insert_insert_eq.
Qed.

Lemma serve_with_session st ws frames info :
  ∃ w, (serve ws frames (with_session st ws info)).1.1 =
       with_session st ws (ClientInfo (user_id info) (room_name info) w).
Proof.
  revert info. induction frames as [|f frames IH]; intros info.
  - exists (whitelist info). by destruct info.
  - destruct (handle_frame_with_session st ws info f) as [w1 H1].
    simpl. unfold bind.
    destruct (handle_frame ws f (with_session st ws info)) as [[st1 out1] r].
    simpl in H1. subst st1. destruct r as [[]|e]; [|by exists w1].
    destruct (IH (ClientInfo (user_id info) (room_name info) w1)) as [w2 H2].
    exists w2.
    destruct (serve ws frames _) as [[st2 out2] r2]. by simpl in *.
Qed.

(** X16: the whole run of [main_handler] for a connection that was not in
    [CLIENTS] leaves the registry exactly as it found it, whatever is
    received and whether or not the loop ends by an exception, with one
    exception: when the registration line cannot be printed,
    [UnicodeEncodeError] leaves the handler after both dictionaries were
    written and before the [try], and the session stays in both.  So the
    registry is restored in every run when the standard output encodes
    every registration line of the room. *)
Theorem main_handler_restores_registry st ws path first frames :
  CLIENTS st !! ws = None →
  ((∀ uid, stdout_encodes (registered_line uid (room_of_path path)) = true) →
   (main_handler ws path first frames st).1.1 = st) ∧
  ((main_handler ws path first frames st).1.1 = st ∨
   ∃ uid w,
     stdout_encodes (registered_line uid (room_of_path path)) = false ∧
     USER_ID_MAP st !! uid = None ∧
     main_handler ws path first frames st =
       (with_session st ws (ClientInfo uid (room_of_path path) w), [],
        Raise UnicodeEncodeError)).
Proof.
  intros Hws.
  assert (Hcases : (main_handler ws path first frames st).1.1 = st ∨
    ∃ uid w,
      stdout_encodes (registered_line uid (room_of_path path)) = false ∧
      USER_ID_MAP st !! uid = None ∧
      main_handler ws path first frames st =
        (with_session st ws (ClientInfo uid (room_of_path path) w), [],
         Raise UnicodeEncodeError)).
  { unfold main_handler, open_connection, bind.
    destruct (String.eqb (room_of_path path) ""); [by left|].
    destruct (register_client_cases ws (room_of_path path) first st) as
      [[Hst Hno] | (data & uid & l & w & _ & _ & _ & _ & _ & Hfree & Hrun)].
    - left. destruct (register_client ws (room_of_path path) first st)
        as [[st1 out1] [[]|e]]; simpl in *; by subst.
    - rewrite Hrun.
      destruct (stdout_encodes (registered_line uid (room_of_path path)))
        eqn:Henc; [|right; exists uid, w; by rewrite Henc].
      left. simpl. unfold try_finally.
      change (State (<[ws := ClientInfo uid (room_of_path path) w]> (CLIENTS st))
                    (<[uid := ws]> (USER_ID_MAP st)))
        with (with_session st ws (ClientInfo uid (room_of_path path) w)).
      destruct (serve_with_session st ws frames
                  (ClientInfo uid (room_of_path path) w)) as [w' Hserve].
      destruct (serve ws frames _) as [[st2 out2] r2]. simpl in Hserve.
      subst st2.
      pose proof (unregister_with_session st ws
        (ClientInfo uid (room_of_path path) w') Hws Hfree) as Hun.
      destruct (unregister_client ws _) as [[st3 out3] [[]|e3]];
        simpl in *; by subst. }
  split; [|done]. intros Hall.
  destruct Hcases as [? | (uid & w & Henc & _)]; [done|].
  by rewrite Hall in Henc.
Qed.

(** ** Further invariants of the reachable states *)

(** X17: in every reachable state no entry of [USER_ID_MAP] dangles: the
    connection it gives is in [CLIENTS] with that user id, so the lookup
    [CLIENTS[recipient_ws]] of the router cannot fail; and no session has
    the empty user id. *)
Theorem user_id_map_entries_live st :
  reachable st →
  (∀ u c, USER_ID_MAP st !! u = Some c →
     ∃ info, CLIENTS st !! c = Some info ∧ user_id info = u) ∧
  (∀ c info, CLIENTS st !! c = Some info → user_id info ≠ "") ∧
  USER_ID_MAP st !! "" = None.
Proof.
  intros Hinv%reachable_inv. split_and!.
  - apply (inv_backward st Hinv).
  - apply (inv_user_id st Hinv).
  - destruct (USER_ID_MAP st !! "") as [c|] eqn:Hc; [|done].
    destruct (inv_backward st Hinv "" c Hc) as (info & Hinfo & Hu).
    by destruct (inv_user_id st Hinv c info Hinfo).
Qed.

Lemma make_whitelist_ok (l : list json) (w : whitelist_value) :
  make_whitelist l = Ok w → whitelist_value_ok w.
Proof.
  intros Hw. pose proof (make_whitelist_repr l w Hw) as Hrepr.
  pose proof (make_whitelist_spec l) as Hspec.
  destruct (forallb hashable l); [|congruence].
  destruct Hspec as (w' & Hw' & Hstar & Hset & _).
  assert (w' = w) as -> by congruence.
  destruct (list_eq_star l) eqn:Hl;
    [apply list_eq_star_spec in Hl; left; auto|].
  assert (Hne : l ≠ [JStr "*"]).
  { intros Heq%list_eq_star_spec. congruence. }
  destruct (Hset Hne) as (s & -> & Hnd). right; left. exists s.
  unfold two_representations in Hrepr. simpl in Hrepr. by split_and!.
Qed.

Lemma set_discard_NoDup (x : json) (s : pyset) :
  NoDup s → NoDup (set_discard x s).
Proof. apply NoDup_filter. Qed.

Lemma handle_frame_value_ok st ws f :
  (∀ c info, CLIENTS st !! c = Some info → whitelist_value_ok (whitelist info)) →
  ∀ c info, CLIENTS (handle_frame ws f st).1.1 !! c = Some info →
    whitelist_value_ok (whitelist info).
Proof.
  intros Hok.
  destruct (handle_frame_cases ws f st) as
    [-> | (info0 & w & Hws & -> & _ & Hw)]; [done|].
  intros c info. simpl. rewrite lookup_insert. case_decide; [|apply Hok].
  intros [= <-]. simpl.
  destruct Hw as [-> | [-> | [[u ->] | [(u & s & Hs & Hw) | [-> _]]]]].
  - by left.
  - right; left. exists []. split_and!; [done | done | constructor].
  - right; left. exists [JStr u]. split_and!; [done | done |].
    apply NoDup_singleton.
  - destruct (Hok ws info0 Hws) as [Hstar | [(s' & Hs' & Hh & Hnd) | Hd]];
      [rewrite Hs in Hstar; discriminate | | congruence].
    assert (s' = s) as -> by congruence.
    right; left. destruct Hw as [-> | ->]; eexists; (split; [done|]).
    + split; [by apply set_add_forallb | by apply set_add_NoDup].
    + split; [by apply set_discard_forallb | by apply set_discard_NoDup].
  - by do 2 right.
Qed.

(** X18: in every reachable state the whitelist of every session is the
    list [["*"]], a set of hashable values holding no value twice, or the
    empty dict; no other list, no other dict and no other type is ever
    stored. *)
Theorem reachable_whitelist_values st :
  reachable st →
  ∀ c info, CLIENTS st !! c = Some info → whitelist_value_ok (whitelist info).
Proof.
  induction 1 as [| st ws room ev _ IH _ _ | st ws f _ IH _ | st ws _ IH].
  - intros c info. simpl. by rewrite lookup_empty.
  - destruct (register_client_cases ws room ev st) as
      [[-> _] | (data & uid & l & w & _ & _ & _ & Hw & _ & _ & ->)]; [done|].
    intros c info. simpl. rewrite lookup_insert. case_decide; [|apply IH].
    intros [= <-]. simpl. by eapply make_whitelist_ok.
  - pose proof (handle_frame_value_ok st ws f IH) as Hframe.
    destruct (active_step_state ws f st) as [-> | ->]; [done|].
    unfold unregister_client.
    destruct (CLIENTS (handle_frame ws f st).1.1 !! ws) as [i|]; [|done].
    intros c info. simpl. rewrite lookup_delete. case_decide; [done|].
    apply Hframe.
  - unfold unregister_client.
    destruct (CLIENTS st !! ws) as [i|]; [|done].
    intros c info. simpl. rewrite lookup_delete. case_decide; [done|].
    apply IH.
Qed.

(** ** More on the validator *)

Lemma dict_get_app_Some (k : string) (d extra : dict) (v : json) :
  dict_get k d = Some v → dict_get k (d ++ extra) = Some v.
Proof.
  induction d as [|[k' v'] d IH]; simpl; [done|].
  by destruct (String.eqb k k').
Qed.

Lemma field_ok_app (d extra : dict) (f : string * pytype) :
  field_ok d f = true → field_ok (d ++ extra) f = true.
Proof.
  unfold field_ok. destruct (dict_get f.1 d) as [v|] eqn:Hv; [|done].
  by rewrite (dict_get_app_Some _ _ extra _ Hv).
Qed.

(** X19: fields beyond the required ones do not matter to the validator:
    a message that is valid stays valid when any further items follow its
    own. *)
Theorem validate_schema_extra_fields (data extra : dict) :
  validate_schema data = true → validate_schema (data ++ extra) = true.
Proof.
  unfold validate_schema.
  destruct (dict_get "type" data) as [[| | |t| |]|] eqn:Ht; try discriminate.
  rewrite (dict_get_app_Some _ _ extra _ Ht).
  destruct (table_get t schema) as [required_fields|]; [|done].
  rewrite !forallb_forall. intros Hall f Hf. by apply field_ok_app, Hall.
Qed.

(** ** More on the request path *)

Lemma rev_app_append (s t : string) :
  String.rev_app s t = String.rev_app s "" +:+ t.
Proof.
  revert t. induction s as [|a s IH]; intros t; simpl; [done|].
  rewrite (IH (String a t)), (IH (String a "")). by rewrite append_assoc.
Qed.

Lemma rev_cons (a : ascii) (s : string) :
  String.rev (String a s) = String.rev s +:+ String a "".
Proof. unfold String.rev. simpl. apply rev_app_append. Qed.

Lemma rev_append (s t : string) :
  String.rev (s +:+ t) = String.rev t +:+ String.rev s.
Proof.
  induction s as [|a s IH].
  - change ("" +:+ t) with t. by rewrite append_empty_r.
  - change (String a s +:+ t) with (String a (s +:+ t)).
    by rewrite !rev_cons, IH, append_assoc.
Qed.

Lemma rev_involutive (s : string) : String.rev (String.rev s) = s.
Proof.
  induction s as [|a s IH]; [done|]. by rewrite rev_cons, rev_append, IH.
Qed.

Lemma rev_empty_iff (s : string) : String.rev s = "" ↔ s = "".
Proof.
  split; [|by intros ->]. intros Hs.
  by rewrite <- (rev_involutive s), Hs.
Qed.

Lemma lstrip_empty_iff (c : ascii) (s : string) :
  lstrip c s = "" ↔ all_char c s = true.
Proof.
  induction s as [|a s IH]; simpl; [done|].
  destruct (Ascii.eqb a c); simpl; [done|]. split; discriminate.
Qed.

Lemma all_char_append (c : ascii) (s t : string) :
  all_char c (s +:+ t) = all_char c s && all_char c t.
Proof.
  induction s as [|a s IH]; [done|].
  change (String a s +:+ t) with (String a (s +:+ t)). simpl.
  by rewrite IH, andb_assoc.
Qed.

Lemma all_char_rev (c : ascii) (s : string) :
  all_char c (String.rev s) = all_char c s.
Proof.
  induction s as [|a s IH]; [done|].
  rewrite rev_cons, all_char_append, IH. simpl.
  by rewrite andb_true_r, andb_comm.
Qed.

Lemma all_char_lstrip (c : ascii) (s : string) :
  all_char c (lstrip c s) = all_char c s.
Proof.
  induction s as [|a s IH]; simpl; [done|].
  destruct (Ascii.eqb a c) eqn:Ha; simpl; [done | by rewrite Ha].
Qed.

Lemma lstrip_no_leading (c : ascii) (s s' : string) :
  lstrip c s ≠ String c s'.
Proof.
  induction s as [|a s IH]; simpl; [done|].
  destruct (Ascii.eqb a c) eqn:Ha; [done|].
  intros [= -> _]. by rewrite Ascii.eqb_refl in Ha.
Qed.

Lemma lstrip_suffix (c : ascii) (s : string) :
  ∃ p, s = p +:+ lstrip c s.
Proof.
  induction s as [|a s [p IH]]; simpl; [by exists ""|].
  destruct (Ascii.eqb a c).
  - exists (String a p). change (String a s = String a (p +:+ lstrip c s)).
    by rewrite <- IH.
  - by exists "".
Qed.

(** X20: the room name is empty, and the connection closed with code
    1008 before any registration, exactly when the request path consists of
    ['/'] characters only (the empty path included); a room name never
    begins and never ends with ['/']. *)
Theorem room_of_path_properties (path : string) :
  (room_of_path path = "" ↔ all_char "/" path = true) ∧
  (∀ s, room_of_path path ≠ String "/" s) ∧
  (∀ s, room_of_path path ≠ s +:+ "/") ∧
  (∀ ws first st,
     open_connection ws path first st =
       if all_char "/" path then
         (st, [Close ws 1008
                 "Room name must be provided in the URL path (e.g., /my-room)."],
          Ok false)
       else register_client ws (room_of_path path) first st).
Proof.
  assert (Hempty : room_of_path path = "" ↔ all_char "/" path = true).
  { unfold room_of_path, strip.
    by rewrite rev_empty_iff, lstrip_empty_iff, all_char_rev, all_char_lstrip. }
  split_and!.
  - done.
  - intros s Hs. unfold room_of_path, strip in Hs.
    apply (f_equal String.rev) in Hs. rewrite rev_involutive, rev_cons in Hs.
    destruct (lstrip_suffix "/" (String.rev (lstrip "/" path))) as [p Hp].
    rewrite Hs in Hp. apply (f_equal String.rev) in Hp.
    rewrite rev_involutive, !rev_append, rev_involutive in Hp.
    by apply lstrip_no_leading in Hp.
  - intros s Hs. unfold room_of_path, strip in Hs.
    apply (f_equal String.rev) in Hs. rewrite rev_involutive, rev_append in Hs.
    by apply lstrip_no_leading in Hs.
  - intros ws first st. unfold open_connection.
    destruct (all_char "/" path) eqn:Hall.
    + by rewrite (proj2 Hempty eq_refl).
    + destruct (String.eqb_spec (room_of_path path) "") as [Hroom|]; [|done].
      apply Hempty in Hroom. congruence.
Qed.

(** ** Whitelist commands followed by a message *)

(** The state a valid whitelist command of [wb] leaves, and whether the
    new whitelist admits [x]. *)
Lemma whitelist_command_effect st wb b data x :
  registry_inv st → CLIENTS st !! wb = Some b →
  validate_schema data = true →
  dict_get "user_id" data = Some (JStr x) →
  ∀ command, item_str "type" data = Ok command →
    command = "whitelist_add" ∨ command = "whitelist_remove" →
    ∃ w, CLIENTS (handle_frame wb (Json (JDict data)) st).1.1 !! wb =
           Some (ClientInfo (user_id b) (room_name b) w) ∧
         USER_ID_MAP (handle_frame wb (Json (JDict data)) st).1.1 =
           USER_ID_MAP st ∧
         (∀ c, c ≠ wb →
            CLIENTS (handle_frame wb (Json (JDict data)) st).1.1 !! c =
            CLIENTS st !! c) ∧
         (command = "whitelist_remove" → whitelisted x w = false) ∧
         (command = "whitelist_add" → whitelist b ≠ WDict [] →
            whitelisted x w = true).
Proof.
  intros Hinv Hwb Hv Hx command Ht Hcmd.
  assert (Hframe : handle_frame wb (Json (JDict data)) st =
                   handle_whitelist_command wb data st).
  { rewrite (handle_frame_dispatch wb data command st Hv Ht).
    by destruct Hcmd as [-> | ->]. }
  rewrite Hframe.
  assert (Hstore : ∀ w out,
    handle_whitelist_command wb data st = (store_whitelist wb b w st, out, Ok tt) →
    CLIENTS (handle_whitelist_command wb data st).1.1 !! wb =
      Some (ClientInfo (user_id b) (room_name b) w) ∧
    USER_ID_MAP (handle_whitelist_command wb data st).1.1 = USER_ID_MAP st ∧
    (∀ c, c ≠ wb →
       CLIENTS (handle_whitelist_command wb data st).1.1 !! c =
       CLIENTS st !! c)).
  { intros w out ->. simpl. split_and!; [apply lookup_insert_eq | done |].
    intros c Hc. by rewrite lookup_insert_ne. }
  destruct (wl_shape_cases _ (inv_shape st Hinv wb b Hwb)) as
    [Hw | [[s Hw] | Hw]].
  - destruct Hcmd as [-> | ->].
    + exists (WSet [JStr x]).
      destruct (Hstore (WSet [JStr x]) _
        (handle_whitelist_command_run st wb b data "whitelist_add" x Hwb Ht Hx
           (WSet [JStr x]) "converted from wildcard and added"
           ltac:(left; eauto))) as (? & ? & ?).
      split_and!; try done. intros _ _. unfold whitelisted. simpl.
      by rewrite String.eqb_refl.
    + exists (WDict []).
      destruct (Hstore (WDict []) _
        (handle_whitelist_command_run st wb b data "whitelist_remove" x Hwb Ht
           Hx (WDict []) "removed" ltac:(right; eauto))) as (? & ? & ?).
      by split_and!.
  - destruct Hcmd as [-> | ->].
    + exists (WSet (set_add (JStr x) s)).
      destruct (Hstore (WSet (set_add (JStr x) s)) _
        (handle_whitelist_command_run st wb b data "whitelist_add" x Hwb Ht Hx
           (WSet (set_add (JStr x) s)) "added"
           ltac:(left; eauto 10))) as (? & ? & ?).
      split_and!; try done. intros _ _. unfold whitelisted. simpl.
      apply set_contains_str, set_add_In_str. by right.
    + exists (WSet (set_discard (JStr x) s)).
      destruct (Hstore (WSet (set_discard (JStr x) s)) _
        (handle_whitelist_command_run st wb b data "whitelist_remove" x Hwb Ht
           Hx (WSet (set_discard (JStr x) s)) "removed"
           ltac:(right; eauto 10))) as (? & ? & ?).
      split_and!; try done. intros _. unfold whitelisted. simpl.
      apply not_true_is_false. rewrite set_contains_str, set_discard_In_str.
      by intros [? _].
  - rewrite (handle_whitelist_command_dict st wb b data x Hwb Hw Hx)
      by (destruct Hcmd as [-> | ->]; [by left | by right]).
    simpl. exists (WDict []). rewrite Hwb, <- Hw.
    split_and!; [by destruct b | done | done | by rewrite Hw | done].
Qed.

(** The router on a message whose sender and recipient sessions are
    known. *)
Lemma message_between st wa a wb b' m p :
  CLIENTS st !! wa = Some a →
  USER_ID_MAP st !! user_id b' = Some wb →
  CLIENTS st !! wb = Some b' →
  room_name b' = room_name a →
  dict_get "recipient_id" m = Some (JStr (user_id b')) →
  dict_get "payload" m = Some p →
  handle_direct_message wa m st =
    (st,
     [if whitelisted (user_id a) (whitelist b')
      then Send wb (forward_message (user_id a) p)
      else Send wa (generic_failure_msg (user_id b'))],
     Ok tt).
Proof.
  intros Ha Hu Hb Hroom Hrid Hp.
  rewrite (handle_direct_message_present wa a m (user_id b') p wb b' st
             Ha Hrid Hp Hu Hb).
  unfold access_check, whitelisted. rewrite Hroom, String.eqb_refl. done.
Qed.

(** X21: after a session in a reachable state has handled a valid
    [whitelist_add] of a user id, a message to it from another session with
    that user id in the same room is forwarded, provided the whitelist was
    the wildcard or a set (on the empty dict the command raises instead). *)
Theorem whitelist_add_then_message_delivered st wa a wb b data m p :
  reachable st →
  CLIENTS st !! wa = Some a → CLIENTS st !! wb = Some b → wa ≠ wb →
  room_name b = room_name a → whitelist b ≠ WDict [] →
  validate_schema data = true → type_is "whitelist_add" data = true →
  dict_get "user_id" data = Some (JStr (user_id a)) →
  dict_get "recipient_id" m = Some (JStr (user_id b)) →
  dict_get "payload" m = Some p →
  let st' := (handle_frame wb (Json (JDict data)) st).1.1 in
  handle_direct_message wa m st' =
    (st', [Send wb (forward_message (user_id a) p)], Ok tt).
Proof.
  intros Hinv%reachable_inv Ha Hb Hne Hroom Hnd Hv Ht%type_is_item Hx Hrid Hp.
  cbv zeta.
  destruct (whitelist_command_effect st wb b data (user_id a) Hinv Hb Hv Hx
              "whitelist_add" Ht ltac:(by left))
    as (w & Hwb' & Hmap & Hother & _ & Hadm).
  pose proof (inv_forward st Hinv wb b Hb) as Hu. rewrite <- Hmap in Hu.
  rewrite <- (Hother wa Hne) in Ha.
  rewrite (message_between _ wa a wb
             (ClientInfo (user_id b) (room_name b) w) m p Ha Hu Hwb' Hroom
             Hrid Hp).
  simpl. by rewrite Hadm.
Qed.

(** X22: after a session in a reachable state has handled a valid
    [whitelist_remove] of a user id, a message to it from another session
    with that user id is answered by the failure message and nothing
    reaches the recipient, whatever the whitelist was before. *)
Theorem whitelist_remove_then_message_rejected st wa a wb b data m p :
  reachable st →
  CLIENTS st !! wa = Some a → CLIENTS st !! wb = Some b → wa ≠ wb →
  validate_schema data = true → type_is "whitelist_remove" data = true →
  dict_get "user_id" data = Some (JStr (user_id a)) →
  dict_get "recipient_id" m = Some (JStr (user_id b)) →
  dict_get "payload" m = Some p →
  let st' := (handle_frame wb (Json (JDict data)) st).1.1 in
  handle_direct_message wa m st' =
    (st', [Send wa (generic_failure_msg (user_id b))], Ok tt).
Proof.
  intros Hinv%reachable_inv Ha Hb Hne Hv Ht%type_is_item Hx Hrid Hp.
  cbv zeta.
  destruct (whitelist_command_effect st wb b data (user_id a) Hinv Hb Hv Hx
              "whitelist_remove" Ht ltac:(by right))
    as (w & Hwb' & Hmap & Hother & Hrej & _).
  pose proof (inv_forward st Hinv wb b Hb) as Hu. rewrite <- Hmap in Hu.
  rewrite <- (Hother wa Hne) in Ha.
  rewrite (handle_direct_message_present wa a m (user_id b) p wb
             (ClientInfo (user_id b) (room_name b) w) _ Ha Hrid Hp Hu Hwb').
  unfold access_check. simpl.
  change (wl_eq_star w || wl_contains (user_id a) w)
    with (whitelisted (user_id a) w).
  by rewrite Hrej, andb_false_r.
Qed.

(** ** The representation of the whitelist, operation by operation *)

Lemma two_representations_store ws info0 w st c info info' f :
  CLIENTS st !! ws = Some info0 →
  (w = star ∨ w = WSet [] ∨ (∃ u, w = WSet [JStr u]) ∨
   (∃ u s, whitelist info0 = WSet s ∧
      (w = WSet (set_add (JStr u) s) ∨ w = WSet (set_discard (JStr u) s))) ∨
   (w = WDict [] ∧ removes_from_wildcard st ws f)) →
  CLIENTS st !! c = Some info →
  CLIENTS (store_whitelist ws info0 w st) !! c = Some info' →
  two_representations hashable (whitelist info) = true →
  (c = ws → ¬ removes_from_wildcard st ws f) →
  two_representations hashable (whitelist info') = true.
Proof.
  intros Hws Hw Hc Hc' Hrepr Hslip. simpl in Hc'.
  rewrite lookup_insert in Hc'. case_decide as Heq; [|congruence].
  subst c. injection Hc' as <-. simpl.
  assert (info0 = info) as -> by congruence.
  destruct Hw as [-> | [-> | [[u ->] | [(u & s & Hs & Hw) | [_ Hrem]]]]];
    try done; [|by destruct Hslip].
  rewrite Hs in Hrepr. unfold two_representations in *. simpl in *.
  destruct Hw as [-> | ->]; simpl.
  - by apply set_add_forallb.
  - by apply set_discard_forallb.
Qed.

(** C1, as the code has it.  In a reachable state: a session created by
    registration holds the wildcard marker or a set of hashable values; a
    [whitelist_add], a [whitelist_toggle_wildcard], and a
    [whitelist_remove] sent while the whitelist is not the wildcard, when
    handled without an exception, leave the whitelist of the sender the
    wildcard marker or a set of hashable values; and every step leaves
    every session whose whitelist is in one of the two representations in
    one of them, except the session that sends a valid [whitelist_remove]
    while its whitelist is the wildcard. *)
Theorem whitelist_representation_preserved st :
  reachable st →
  (∀ ws room ev info,
     CLIENTS st !! ws = None →
     CLIENTS (register_client ws room ev st).1.1 !! ws = Some info →
     two_representations hashable (whitelist info) = true) ∧
  (∀ ws data info',
     validate_schema data = true →
     type_is "whitelist_add" data = true ∨
       type_is "whitelist_toggle_wildcard" data = true ∨
       type_is "whitelist_remove" data = true →
     ¬ removes_from_wildcard st ws (Json (JDict data)) →
     (handle_frame ws (Json (JDict data)) st).2 = Ok tt →
     CLIENTS (handle_frame ws (Json (JDict data)) st).1.1 !! ws = Some info' →
     two_representations hashable (whitelist info') = true) ∧
  (∀ ws f c info info',
     CLIENTS st !! c = Some info →
     CLIENTS (active_step ws f st).1.1 !! c = Some info' →
     two_representations hashable (whitelist info) = true →
     (c = ws → ¬ removes_from_wildcard st ws f) →
     two_representations hashable (whitelist info') = true) ∧
  (∀ ws room ev c info,
     CLIENTS st !! ws = None → CLIENTS st !! c = Some info →
     CLIENTS (register_client ws room ev st).1.1 !! c = Some info) ∧
  (∀ ws c info',
     CLIENTS (unregister_client ws st).1.1 !! c = Some info' →
     CLIENTS st !! c = Some info').
Proof.
  intros Hinv%reachable_inv. split_and!.
  - intros ws room ev info Hfresh.
    destruct (register_client_cases ws room ev st) as
      [[-> _] | (data & uid & l & w & _ & _ & _ & Hw & _ & _ & ->)];
      [congruence|].
    simpl. rewrite lookup_insert_eq. intros [= <-]. simpl.
    by eapply make_whitelist_repr.
  - intros ws data info' Hv Htype Hslip Hok Hafter.
    assert (∃ info, CLIENTS st !! ws = Some info) as [info Hws].
    { destruct (handle_frame_cases ws (Json (JDict data)) st) as
        [Hsame | (info & w & Hws & _)]; [|eauto].
      rewrite Hsame in Hafter. eauto. }
    destruct (validate_schema_fields data Hv) as (t & Ht & Hfields).
    assert (Hname : ∀ name, type_is name data = true → t = name).
    { intros name Hn%type_is_item. congruence. }
    rewrite (handle_frame_dispatch ws data t st Hv Ht) in Hok, Hafter.
    pose proof (wl_shape_cases _ (inv_shape st Hinv ws info Hws)) as Hshape.
    pose proof (inv_shape st Hinv ws info Hws) as Hhash.
    destruct Htype as [Hadd | [Htog | Hrem]].
    + apply Hname in Hadd as ->. simpl in Hok, Hafter.
      destruct Hfields as [? | [(? & _) | [(_ & [u Hu]) | (? & _)]]];
        try discriminate.
      destruct Hshape as [Hw | [[s Hw] | Hw]].
      * rewrite (handle_whitelist_command_run st ws info data "whitelist_add"
          u Hws Ht Hu (WSet [JStr u]) "converted from wildcard and added")
          in Hafter by (left; eauto).
        simpl in Hafter. rewrite lookup_insert_eq in Hafter.
        by injection Hafter as <-.
      * rewrite (handle_whitelist_command_run st ws info data "whitelist_add"
          u Hws Ht Hu (WSet (set_add (JStr u) s)) "added")
          in Hafter by (left; eauto 10).
        simpl in Hafter. rewrite lookup_insert_eq in Hafter.
        injection Hafter as <-. rewrite Hw in Hhash.
        unfold two_representations. simpl. by apply set_add_forallb.
      * rewrite (handle_whitelist_command_dict st ws info data u Hws Hw Hu)
          in Hok by (by left). discriminate.
    + apply Hname in Htog as ->. simpl in Hok, Hafter.
      destruct Hfields as [? | [(? & _) | [([?|?] & _) | (_ & [b Hb])]]];
        try discriminate.
      destruct (handle_whitelist_toggle_run st ws info data b Hws Hb) as
        (m & cl & Hrun).
      rewrite Hrun in Hafter. simpl in Hafter.
      rewrite lookup_insert_eq in Hafter. injection Hafter as <-.
      by destruct b.
    + apply Hname in Hrem as ->. simpl in Hok, Hafter.
      destruct Hfields as [? | [(? & _) | [(_ & [u Hu]) | (? & _)]]];
        try discriminate.
      destruct Hshape as [Hw | [[s Hw] | Hw]].
      * destruct Hslip. exists data, info. split_and!; try done.
        by apply type_is_item.
      * rewrite (handle_whitelist_command_run st ws info data
          "whitelist_remove" u Hws Ht Hu (WSet (set_discard (JStr u) s))
          "removed") in Hafter by (right; eauto 10).
        simpl in Hafter. rewrite lookup_insert_eq in Hafter.
        injection Hafter as <-. rewrite Hw in Hhash.
        unfold two_representations. simpl. by apply set_discard_forallb.
      * rewrite (handle_whitelist_command_dict st ws info data u Hws Hw Hu)
          in Hok by (by right). discriminate.
  - intros ws f c info info' Hc Hafter Hrepr Hslip.
    assert (Hframe : ∀ i, CLIENTS (handle_frame ws f st).1.1 !! c = Some i →
      two_representations hashable (whitelist i) = true).
    { intros i Hi.
      destruct (handle_frame_cases ws f st) as
        [Hsame | (info0 & w & Hws & Hst & _ & Hw)].
      - rewrite Hsame in Hi. congruence.
      - rewrite Hst in Hi.
        by eapply (two_representations_store ws info0 w st c info i f). }
    destruct (active_step_state ws f st) as [Hst | Hst];
      rewrite Hst in Hafter; [by apply Hframe|].
    unfold unregister_client in Hafter.
    destruct (CLIENTS (handle_frame ws f st).1.1 !! ws) as [i0|];
      [|by apply Hframe].
    simpl in Hafter. rewrite lookup_delete in Hafter.
    case_decide; [done | by apply Hframe].
  - intros ws room ev c info Hfresh Hc.
    destruct (register_client_cases ws room ev st) as
      [[-> _] | (data & uid & l & w & _ & _ & _ & _ & _ & _ & ->)]; [done|].
    simpl. rewrite lookup_insert_ne; [done | congruence].
  - intros ws c info'. unfold unregister_client.
    destruct (CLIENTS st !! ws) as [i0|]; [|done].
    simpl. rewrite lookup_delete. by case_decide.
Qed.

End Server.

(** * The scenarios of the specification *)

Lemma lobby_a_reachable : reachable utf8_stdout in_order lobby_a.
Proof.
  exact (reach_register utf8_stdout in_order initial 1 "lobby"
           (register_frame "a" [JStr "*"])
           (reach_initial utf8_stdout in_order) eq_refl
           ltac:(discriminate)).
Qed.

Lemma lobby_ab_reachable : reachable utf8_stdout in_order lobby_ab.
Proof.
  exact (reach_register utf8_stdout in_order lobby_a 2 "lobby"
           (register_frame "b" [JStr "a"])
           lobby_a_reachable eq_refl ltac:(discriminate)).
Qed.

Lemma lobby_abc_reachable : reachable utf8_stdout in_order lobby_abc.
Proof.
  exact (reach_register utf8_stdout in_order lobby_ab 3 "other"
           (register_frame "c" [JStr "*"])
           lobby_ab_reachable eq_refl ltac:(discriminate)).
Qed.

Lemma lobby_n_reachable : reachable utf8_stdout in_order lobby_n.
Proof.
  exact (reach_register utf8_stdout in_order initial 1 "lobby"
           (register_frame "a" [JInt 7])
           (reach_initial utf8_stdout in_order) eq_refl
           ltac:(discriminate)).
Qed.

Example scenario_b_to_a :
  (active_step in_order 2
     (Json (JDict (message_data "a" (JDict [("x", JInt 1)])))) lobby_ab).1.2
  = [Send 1 (JDict [("type", JStr "incoming_message"); ("sender_id", JStr "b");
                    ("payload", JDict [("x", JInt 1)])])].
Proof. reflexivity. Qed.

Example scenario_a_to_b :
  (active_step in_order 1
     (Json (JDict (message_data "b" (JDict [("x", JInt 1)])))) lobby_ab).1.2
  = [Send 2 (JDict [("type", JStr "incoming_message"); ("sender_id", JStr "a");
                    ("payload", JDict [("x", JInt 1)])])].
Proof. reflexivity. Qed.

Example scenario_b_to_c_other_room :
  (active_step in_order 2
     (Json (JDict (message_data "c" JNull))) lobby_abc).1.2
  = [Send 2 (generic_failure_msg "c")].
Proof. reflexivity. Qed.

Example scenario_remove_then_rejected :
  let st := (active_step in_order 2
               (Json (JDict (whitelist_data "whitelist_remove" "a")))
               lobby_ab).1.1 in
  (active_step in_order 1 (Json (JDict (message_data "b" JNull))) st).1.2
  = [Send 1 (generic_failure_msg "b")].
Proof. reflexivity. Qed.

(** ** Instances of the theorems *)

(** A registration with the whitelist [[7]] is accepted and stores the set
    [{7}], whose member is not a string. *)
Lemma whitelist_of_numbers_counterexample :
  validate_schema (register_data "a" [JInt 7]) = true ∧
  reachable utf8_stdout in_order lobby_n ∧
  CLIENTS lobby_n !! 1 = Some (ClientInfo "a" "lobby" (WSet [JInt 7])) ∧
  two_representations is_str (WSet [JInt 7]) = false.
Proof. split_and!; try reflexivity. apply lobby_n_reachable. Qed.

Lemma whitelist_representation_witness :
  reachable utf8_stdout in_order lobby_ab ∧
  two_representations hashable (WSet [JStr "a"]) = true ∧
  two_representations hashable
    (WSet (set_discard (JStr "a") [JStr "a"])) = true.
Proof.
  split; [apply lobby_ab_reachable|]. split; [reflexivity|].
  apply (proj1 (proj2 (proj2 (whitelist_representation_preserved
           utf8_stdout in_order lobby_ab lobby_ab_reachable))) 2
           (Json (JDict (whitelist_data "whitelist_remove" "a"))) 2
           (ClientInfo "b" "lobby" (WSet [JStr "a"]))
           (ClientInfo "b" "lobby" (WSet (set_discard (JStr "a") [JStr "a"])))
           eq_refl eq_refl eq_refl).
  intros _ (data & info & Hf & _ & _ & Hinfo & Hstar).
  injection Hinfo as <-. discriminate Hstar.
Defined.

Lemma whitelist_remove_on_wildcard_witness :
  CLIENTS lobby_a !! 1 = Some (ClientInfo "a" "lobby" star) ∧
  handle_whitelist_command in_order 1 (whitelist_data "whitelist_remove" "z")
    lobby_a =
    (store_whitelist 1 (ClientInfo "a" "lobby" star) (WDict []) lobby_a,
     [Send 1 (JDict [("type", JStr "whitelist_updated");
                     ("message", JStr "User 'z' was removed.");
                     ("current_whitelist", JDict [])])],
     Ok tt).
Proof.
  split; [reflexivity|].
  apply (whitelist_remove_on_wildcard in_order lobby_a 1
           (ClientInfo "a" "lobby" star)
           (whitelist_data "whitelist_remove" "z") "z"); reflexivity.
Defined.

(** After the wildcard was replaced by the dict, a further
    [whitelist_add] raises [AttributeError] out of the loop, which ends the
    connection and deregisters the client. *)
Example whitelist_add_after_remove_raises :
  let st := (active_step in_order 1
               (Json (JDict (whitelist_data "whitelist_remove" "z")))
               lobby_a).1.1 in
  active_step in_order 1 (Json (JDict (whitelist_data "whitelist_add" "b"))) st
  = (initial, [Print "Client 'a' unregistered and cleaned up."],
     Raise AttributeError).
Proof. reflexivity. Qed.

(** Disabling the wildcard, the sibling path, stores the empty set and
    acknowledges the empty sequence. *)
Example toggle_off_stores_empty_set :
  handle_whitelist_toggle in_order 1
    [("type", JStr "whitelist_toggle_wildcard"); ("enabled", JBool false)]
    lobby_a
  = (store_whitelist 1 (ClientInfo "a" "lobby" star) (WSet []) lobby_a,
     [Send 1 (JDict [("type", JStr "whitelist_updated");
        ("message",
         JStr "Wildcard whitelist has been disabled (accepting from no one).");
        ("current_whitelist", JList [])])],
     Ok tt).
Proof. reflexivity. Qed.

(** A register message whose whitelist is [[1]] passes the validator but
    not the rule of the specification. *)
Lemma validate_schema_counterexample :
  validate_schema (register_data "a" [JInt 1]) = true ∧
  spec_valid (register_data "a" [JInt 1]) = false.
Proof. split; reflexivity. Qed.

(** On the path [/a/b] the session is bound to the room [a/b], while the
    trailing segment is [b]. *)
Lemma room_name_counterexample :
  (open_connection utf8_stdout 1 "/a/b" (register_frame "a" []) initial).2 = Ok true ∧
  CLIENTS (open_connection utf8_stdout 1 "/a/b" (register_frame "a" []) initial).1.1 !! 1
    = Some (ClientInfo "a" "a/b" (WSet [])) ∧
  trailing_segment "/a/b" = "b" ∧
  room_of_path "/a/b" ≠ trailing_segment "/a/b".
Proof. split_and!; try reflexivity. discriminate. Qed.

Lemma room_name_witness :
  room_of_path "//" = "" ∧
  main_handler utf8_stdout in_order 1 "//" (register_frame "a" [])
    [Json (JDict (message_data "a" JNull))] initial =
    (initial,
     [Close 1 1008
        "Room name must be provided in the URL path (e.g., /my-room)."],
     Ok tt) ∧
  trailing_segment "/lobby/" = "lobby".
Proof.
  split; [reflexivity|]. split.
  - apply (proj1 (room_name_is_stripped_path utf8_stdout in_order initial 1 "//"
                    (register_frame "a" []))). reflexivity.
  - apply (proj2 (proj2 (room_name_is_stripped_path utf8_stdout in_order initial 1
                           "/lobby/" RecvTimeout))). reflexivity.
Defined.

Lemma message_forwarded_witness :
  CLIENTS lobby_ab !! 2 = Some (ClientInfo "b" "lobby" (WSet [JStr "a"])) ∧
  USER_ID_MAP lobby_ab !! "a" = Some 1 ∧
  ∃ recipient,
    CLIENTS lobby_ab !! 1 = Some recipient ∧ user_id recipient = "a" ∧
    (In (Send 1 (forward_message "b" (JInt 5)))
        (handle_direct_message 2 (message_data "a" (JInt 5)) lobby_ab).1.2
     ↔ deliverable (ClientInfo "b" "lobby" (WSet [JStr "a"])) recipient).
Proof.
  split; [reflexivity|]. split; [reflexivity|].
  destruct (message_forwarded_iff_deliverable utf8_stdout in_order lobby_ab 2
              (ClientInfo "b" "lobby" (WSet [JStr "a"]))
              (message_data "a" (JInt 5)) "a" (JInt 5) 1
              lobby_ab_reachable eq_refl eq_refl eq_refl eq_refl)
    as (recipient & Hr & Hu & Hiff & _).
  exists recipient. split; [exact Hr|]. split; [exact Hu | exact Hiff].
Defined.

Lemma failure_response_witness :
  USER_ID_MAP lobby_ab !! "c" = None ∧
  USER_ID_MAP lobby_abc !! "c" = Some 3 ∧
  (handle_direct_message 2 (message_data "c" JNull) lobby_ab).1.2 =
  (handle_direct_message 2 (message_data "c" JNull) lobby_abc).1.2.
Proof.
  split; [reflexivity|]. split; [reflexivity|].
  apply (failure_response_indistinguishable utf8_stdout in_order lobby_ab lobby_abc 2
           (ClientInfo "b" "lobby" (WSet [JStr "a"]))
           (ClientInfo "b" "lobby" (WSet [JStr "a"]))
           (message_data "c" JNull) "c" 3 (ClientInfo "c" "other" star)
           lobby_abc_reachable eq_refl eq_refl eq_refl eq_refl eq_refl eq_refl).
  intros [Hroom _]. discriminate Hroom.
Defined.

Lemma registry_views_witness :
  reachable utf8_stdout in_order lobby_ab ∧ registry_consistent lobby_ab.
Proof.
  split; [apply lobby_ab_reachable|].
  apply (registry_views_consistent utf8_stdout in_order lobby_ab lobby_ab_reachable).
Defined.

Lemma conflicting_user_id_witness :
  USER_ID_MAP lobby_a !! "a" = Some 1 ∧
  register_client utf8_stdout 2 "lobby" (register_frame "a" []) lobby_a =
    (lobby_a, [Close 2 1008 "User ID is invalid or already in use."],
     Ok false).
Proof.
  split; [reflexivity|].
  apply (proj1 (conflicting_user_id_rejected utf8_stdout in_order) lobby_a 2 "lobby"
           (register_data "a" []) "a"); try reflexivity.
  right. by exists 1.
Defined.

Lemma registration_decode_failure_witness :
  CLIENTS lobby_a !! 2 = None ∧
  register_client utf8_stdout 2 "lobby" (RecvFrame (Unloadable InvalidUtf8))
    lobby_a = (lobby_a, [], Raise UnicodeDecodeError) ∧
  register_client utf8_stdout 2 "lobby" RecvTimeout lobby_a =
    (lobby_a, [], Ok false).
Proof.
  split; [reflexivity|].
  pose proof (registration_decode_failure_raises utf8_stdout in_order lobby_a
                2 "lobby" lobby_a_reachable eq_refl) as (Hcaught & Hraise & _).
  split.
  - exact (proj1 (Hraise InvalidUtf8)).
  - exact (proj1 (Hcaught RecvTimeout (or_introl eq_refl))).
Defined.

Lemma register_frame_ignored_witness :
  validate_schema (register_data "z" []) = true ∧
  active_step in_order 1 (Json (JDict (register_data "z" []))) lobby_a =
    (lobby_a, [], Ok tt).
Proof.
  split; [reflexivity|].
  apply (register_frame_ignored_when_active in_order lobby_a 1
           (register_data "z" []) eq_refl eq_refl).
Defined.

(** ** Instances of the further properties *)

Lemma lobby_dict_reachable : reachable utf8_stdout in_order lobby_dict.
Proof.
  exact (reach_frame utf8_stdout in_order lobby_a 1
           (Json (JDict (whitelist_data "whitelist_remove" "z")))
           lobby_a_reachable (mk_is_Some _ _ eq_refl)).
Qed.

Lemma invalid_first_message_witness :
  validate_schema (message_data "a" JNull)
    && type_is "register" (message_data "a" JNull) = false ∧
  register_client utf8_stdout 2 "lobby" (RecvFrame (Json (JDict (message_data "a" JNull))))
    lobby_a =
    (lobby_a,
     [Close 2 1002
        "Protocol error: First message must be a valid 'register' type."],
     Ok false).
Proof.
  split; [reflexivity|].
  apply (invalid_first_message_closes_1002 utf8_stdout in_order lobby_a 2 "lobby"
           (message_data "a" JNull) eq_refl).
Defined.

Lemma registration_uncaught_exceptions_witness :
  main_handler utf8_stdout in_order 2 "/lobby" (RecvFrame (Json (JList []))) [BadJson]
    lobby_a = (lobby_a, [], Raise AttributeError) ∧
  main_handler utf8_stdout in_order 2 "/lobby" (register_frame "b" [JList []]) [BadJson]
    lobby_a = (lobby_a, [], Raise TypeError).
Proof.
  split.
  - apply (proj1 (registration_uncaught_exceptions utf8_stdout in_order lobby_a 2));
      [reflexivity | discriminate].
  - apply (proj2 (registration_uncaught_exceptions utf8_stdout in_order lobby_a 2)
             (register_data "b" [JList []]) "b" [JList []]);
      try reflexivity; discriminate.
Defined.

Lemma registered_whitelist_witness :
  USER_ID_MAP lobby_a !! "b" = None ∧
  ∃ w,
    (register_client utf8_stdout 2 "lobby"
       (register_frame "b" [JStr "a"; JStr "a"]) lobby_a).1.1 =
      State (<[2 := ClientInfo "b" "lobby" w]> (CLIENTS lobby_a))
            (<[("b" : string) := 2]> (USER_ID_MAP lobby_a)) ∧
    whitelisted "a" w = true.
Proof.
  split; [reflexivity|].
  destruct (registered_whitelist_admits utf8_stdout lobby_a 2 "lobby"
              (register_data "b" [JStr "a"; JStr "a"]) "b" [JStr "a"; JStr "a"]
              eq_refl eq_refl eq_refl eq_refl ltac:(discriminate) eq_refl
              eq_refl) as (w & Hst & _ & _ & _ & _ & Hadm).
  exists w. split; [exact Hst|].
  apply Hadm. right. by left.
Defined.

Lemma whitelist_add_narrows_witness :
  CLIENTS lobby_a !! 1 = Some (ClientInfo "a" "lobby" star) ∧
  (handle_whitelist_command in_order 1 (whitelist_data "whitelist_add" "b")
     lobby_a).1.1 =
    store_whitelist 1 (ClientInfo "a" "lobby" star) (WSet [JStr "b"]) lobby_a.
Proof.
  split; [reflexivity|].
  by rewrite (proj1 (whitelist_add_narrows_wildcard in_order lobby_a 1
        (ClientInfo "a" "lobby" star) (whitelist_data "whitelist_add" "b") "b"
        eq_refl eq_refl eq_refl eq_refl)).
Defined.

Lemma whitelist_add_on_set_witness :
  CLIENTS lobby_ab !! 2 = Some (ClientInfo "b" "lobby" (WSet [JStr "a"])) ∧
  (whitelisted "c" (WSet (set_add (JStr "c") [JStr "a"])) = true ↔
   "c" = "c" ∨ whitelisted "c" (WSet [JStr "a"]) = true).
Proof.
  split; [reflexivity|].
  apply (proj1 (proj2 (whitelist_add_on_set in_order lobby_ab 2
        (ClientInfo "b" "lobby" (WSet [JStr "a"]))
        (whitelist_data "whitelist_add" "c") "c" [JStr "a"]
        eq_refl eq_refl eq_refl eq_refl))).
Defined.

Lemma whitelist_remove_on_set_witness :
  CLIENTS lobby_ab !! 2 = Some (ClientInfo "b" "lobby" (WSet [JStr "a"])) ∧
  (handle_whitelist_command in_order 2 (whitelist_data "whitelist_remove" "a")
     lobby_ab).1.1 =
    store_whitelist 2 (ClientInfo "b" "lobby" (WSet [JStr "a"])) (WSet [])
      lobby_ab.
Proof.
  split; [reflexivity|].
  by rewrite (proj1 (whitelist_remove_on_set in_order lobby_ab 2
        (ClientInfo "b" "lobby" (WSet [JStr "a"]))
        (whitelist_data "whitelist_remove" "a") "a" [JStr "a"]
        eq_refl eq_refl eq_refl eq_refl)).
Defined.

Lemma whitelist_toggle_witness :
  CLIENTS lobby_dict !! 1 = Some (ClientInfo "a" "lobby" (WDict [])) ∧
  (handle_whitelist_toggle in_order 1 (toggle_data false) lobby_dict).1.1 =
    store_whitelist 1 (ClientInfo "a" "lobby" (WDict [])) (WSet []) lobby_dict.
Proof.
  split; [reflexivity|].
  apply (proj1 (whitelist_toggle_overwrites in_order lobby_dict 1
        (ClientInfo "a" "lobby" (WDict [])) (toggle_data false) false
        eq_refl eq_refl)).
Defined.


Lemma raising_frame_witness :
  (handle_frame in_order 1 (Json (JInt 0)) lobby_ab).2 = Raise AttributeError ∧
  CLIENTS (active_step in_order 1 (Json (JInt 0)) lobby_ab).1.1 !! 1 = None.
Proof.
  split; [reflexivity|].
  apply (raising_frame_ends_session utf8_stdout in_order lobby_ab 1 (Json (JInt 0))
           AttributeError lobby_ab_reachable eq_refl).
Defined.

Lemma other_room_witness :
  CLIENTS lobby_abc !! 3 = Some (ClientInfo "c" "other" star) ∧
  handle_direct_message 2 (message_data "c" JNull) lobby_abc =
    (lobby_abc, [Send 2 (generic_failure_msg "c")], Ok tt).
Proof.
  split; [reflexivity|].
  apply (other_room_never_delivered lobby_abc 2
           (ClientInfo "b" "lobby" (WSet [JStr "a"]))
           (message_data "c" JNull) "c" 3 (ClientInfo "c" "other" star)
           eq_refl eq_refl eq_refl eq_refl).
  discriminate.
Defined.

Lemma register_then_unregister_witness :
  (register_client utf8_stdout 2 "lobby" (register_frame "b" [JStr "a"]) lobby_a).2
    = Ok true ∧
  (unregister_client 2 lobby_ab).1.1 = lobby_a.
Proof.
  split; [reflexivity|].
  apply (register_then_unregister utf8_stdout lobby_a 2 "lobby"
           (register_frame "b" [JStr "a"]) eq_refl eq_refl).
Defined.

Lemma main_handler_restores_witness :
  CLIENTS lobby_a !! 2 = None ∧
  (main_handler (λ _, true) in_order 2 "/lobby"
     (register_frame "b" [JStr "a"])
     [Json (JDict (message_data "a" JNull)); BadJson;
      Json (JDict (toggle_data true)); Json JNull;
      Json (JDict (message_data "a" JNull))] lobby_a).1.1 = lobby_a.
Proof.
  split; [reflexivity|].
  apply (proj1 (main_handler_restores_registry (λ _, true) in_order lobby_a 2
                  "/lobby" _ _ eq_refl)).
  intros uid. reflexivity.
Defined.

(** A user id that is a lone surrogate: the registration line cannot be
    printed on a UTF-8 output, the exception leaves the handler and the
    session stays in both dictionaries. *)
Example unprintable_user_id_stays_registered :
  utf8_stdout (registered_line lone_surrogate "lobby") = false ∧
  main_handler utf8_stdout in_order 2 "/lobby"
    (register_frame lone_surrogate []) [BadJson] lobby_a =
    (add_session 2 (ClientInfo lone_surrogate "lobby" (WSet [])) lobby_a, [],
     Raise UnicodeEncodeError).
Proof. split; reflexivity. Qed.

Lemma user_id_map_entries_witness :
  reachable utf8_stdout in_order lobby_ab ∧ USER_ID_MAP lobby_ab !! "" = None.
Proof.
  split; [apply lobby_ab_reachable|].
  apply (user_id_map_entries_live utf8_stdout in_order lobby_ab lobby_ab_reachable).
Defined.

Lemma reachable_whitelist_values_witness :
  CLIENTS lobby_dict !! 1 = Some (ClientInfo "a" "lobby" (WDict [])) ∧
  whitelist_value_ok (WDict []).
Proof.
  split; [reflexivity|].
  apply (reachable_whitelist_values utf8_stdout in_order lobby_dict lobby_dict_reachable 1
           (ClientInfo "a" "lobby" (WDict [])) eq_refl).
Defined.

Lemma validate_schema_extra_fields_witness :
  validate_schema (register_data "a" []) = true ∧
  validate_schema (register_data "a" [] ++ [("note", JInt 3)]) = true.
Proof.
  split; [reflexivity|].
  apply (validate_schema_extra_fields (register_data "a" [])
           [("note", JInt 3)] eq_refl).
Defined.

Lemma whitelist_add_then_message_witness :
  let st' := (handle_frame in_order 1
                (Json (JDict (whitelist_data "whitelist_add" "b")))
                lobby_ab).1.1 in
  handle_direct_message 2 (message_data "a" (JInt 5)) st' =
    (st', [Send 1 (forward_message "b" (JInt 5))], Ok tt).
Proof.
  apply (whitelist_add_then_message_delivered utf8_stdout in_order lobby_ab 2
           (ClientInfo "b" "lobby" (WSet [JStr "a"])) 1
           (ClientInfo "a" "lobby" star)
           (whitelist_data "whitelist_add" "b") (message_data "a" (JInt 5))
           (JInt 5) lobby_ab_reachable eq_refl eq_refl ltac:(discriminate)
           eq_refl ltac:(discriminate) eq_refl eq_refl eq_refl eq_refl eq_refl).
Defined.

Lemma whitelist_remove_then_message_witness :
  let st' := (handle_frame in_order 2
                (Json (JDict (whitelist_data "whitelist_remove" "a")))
                lobby_ab).1.1 in
  handle_direct_message 1 (message_data "b" (JInt 5)) st' =
    (st', [Send 1 (generic_failure_msg "b")], Ok tt).
Proof.
  apply (whitelist_remove_then_message_rejected utf8_stdout in_order lobby_ab 1
           (ClientInfo "a" "lobby" star) 2
           (ClientInfo "b" "lobby" (WSet [JStr "a"]))
           (whitelist_data "whitelist_remove" "a") (message_data "b" (JInt 5))
           (JInt 5) lobby_ab_reachable eq_refl eq_refl ltac:(discriminate)
           eq_refl eq_refl eq_refl eq_refl eq_refl).
Defined.

Lemma register_client_succeeds_witness :
  (register_client utf8_stdout 2 "lobby" (register_frame "b" [JStr "a"])
     lobby_a).2 = Ok true.
Proof.
  apply (register_client_succeeds_iff utf8_stdout lobby_a 2 "lobby"
           (register_frame "b" [JStr "a"])).
  exists (register_data "b" [JStr "a"]), "b", [JStr "a"].
  repeat (split; [reflexivity|]). split; [discriminate|].
  repeat (split; [reflexivity|]). reflexivity.
Defined.

Lemma frame_touches_only_sender_witness :
  USER_ID_MAP (handle_frame in_order 2
                 (Json (JDict (whitelist_data "whitelist_remove" "a")))
                 lobby_ab).1.1 = USER_ID_MAP lobby_ab.
Proof.
  apply (frame_touches_only_sender_whitelist in_order lobby_ab 2
           (Json (JDict (whitelist_data "whitelist_remove" "a")))).
Defined.

Lemma frame_output_witness :
  (length (handle_frame in_order 2
             (Json (JDict (message_data "a" JNull))) lobby_ab).1.2 ≤ 1)%nat.
Proof.
  apply (frame_output in_order lobby_ab 2
           (Json (JDict (message_data "a" JNull)))).
Defined.

Lemma unregister_client_idempotent_witness :
  CLIENTS lobby_a !! 5 = None ∧
  unregister_client 5 lobby_a = (lobby_a, [], Ok tt).
Proof.
  split; [reflexivity|].
  apply (unregister_client_idempotent lobby_a 5). reflexivity.
Defined.

Lemma room_of_path_properties_witness :
  all_char "/" "///" = true ∧ room_of_path "///" = "".
Proof.
  split; [reflexivity|].
  apply (proj1 (room_of_path_properties utf8_stdout "///")). reflexivity.
Defined.
